(** * point-cloud-render-engine/serve.py: a static file server for DDS assets

    The script under verification is a thin layer over CPython's standard
    library: it registers one MIME type, overrides one method of
    [http.server.SimpleHTTPRequestHandler], optionally enters [dist], and
    runs a [socketserver.TCPServer] until interrupted.

    The development has two layers.

    - The *script* ([add_type] call, [PORT], [DdsHTTPRequestHandler],
      [main]) is translated line by line from [serve.py].
    - The *environment* it runs in (the [mimetypes], [posixpath],
      [http.server] and [socketserver] modules, the operating system and the
      interpreter's treatment of exceptions) is modelled after CPython 3.11,
      function by function and under the library's own names.  What the
      library computes from data that plays no role here (dates, HTML pages,
      URL decoding) is left abstract in a [Library] record.  Exceptions are
      modelled where the code can raise them on what it gets from outside:
      [chdir] and [bind] at start-up, [open] and the formatting of a date
      inside the handler. *)

From Stdlib Require Import ZArith List Bool Ascii String DecimalString Lia.
From stdpp Require Import gmap strings.
Import ListNotations.

Local Open Scope string_scope.
Local Open Scope Z_scope.

(* ===================================================================== *)
(** * Python strings *)
(* ===================================================================== *)

Module Str.

Definition chars (s : string) : list ascii := list_ascii_of_string s.
Definition of_chars (l : list ascii) : string := string_of_list_ascii l.

(** [s.rfind(c)] for a one-character needle: the highest index holding
    [c], or [-1]. *)
Fixpoint rfind (c : ascii) (l : list ascii) : Z :=
  match l with
  | [] => -1
  | a :: l' =>
      let r := rfind c l' in
      if 0 <=? r then 1 + r else if Ascii.eqb a c then 0 else -1
  end.

(** [s[lo:hi]] for [0 <= lo]. *)
Definition slice (l : list ascii) (lo hi : Z) : list ascii :=
  take (Z.to_nat (hi - lo)) (drop (Z.to_nat lo) l).

(** [s.endswith(suffix)]. *)
Definition endswith (s suffix : string) : bool :=
  let n := String.length s in
  let k := String.length suffix in
  (k <=? n)%nat && String.eqb (substring (n - k) k s) suffix.

Definition lower_char (c : ascii) : ascii :=
  let n := nat_of_ascii c in
  if ((65 <=? n) && (n <=? 90))%nat then ascii_of_nat (n + 32) else c.

(** [s.lower()], on the ASCII letters. *)
Fixpoint lower (s : string) : string :=
  match s with
  | EmptyString => EmptyString
  | String c s' => String (lower_char c) (lower s')
  end.

(** [b"".join(parts)]. *)
Definition join (parts : list string) : string :=
  fold_right String.append "" parts.

(** [str(n)] for an integer. *)
Definition of_Z (n : Z) : string := NilZero.string_of_int (Z.to_int n).

End Str.

(* ===================================================================== *)
(** * posixpath *)
(* ===================================================================== *)

Module posixpath.

(** [genericpath._splitext(p, '/', None, '.')]: the extension runs from
    the last dot of the last component to the end, unless only dots
    precede that dot in the component. *)
Definition splitext (p : string) : string * string :=
  let l := Str.chars p in
  let sepIndex := Str.rfind "/" l in
  let dotIndex := Str.rfind "." l in
  if (sepIndex <? dotIndex)
     && existsb (fun c => negb (Ascii.eqb c "."))
                (Str.slice l (sepIndex + 1) dotIndex)
  then (Str.of_chars (take (Z.to_nat dotIndex) l),
        Str.of_chars (drop (Z.to_nat dotIndex) l))
  else (p, "").

(** [posixpath.join(a, b)]. *)
Definition join (a b : string) : string :=
  if String.prefix "/" b then b
  else if String.eqb a "" || Str.endswith a "/" then a ++ b
  else a ++ "/" ++ b.

End posixpath.

(* ===================================================================== *)
(** * mimetypes *)
(* ===================================================================== *)

Module mimetypes.

(** [_suffix_map_default] and [_encodings_map_default]: module constants,
    copied into every [MimeTypes] object and never written afterwards. *)
Definition _suffix_map_default : gmap string string :=
  list_to_map [ (".svgz", ".svg.gz"); (".tgz", ".tar.gz");
                (".taz", ".tar.gz"); (".tz", ".tar.gz");
                (".tbz2", ".tar.bz2"); (".txz", ".tar.xz") ].

Definition _encodings_map_default : gmap string string :=
  list_to_map [ (".gz", "gzip"); (".Z", "compress"); (".bz2", "bzip2");
                (".xz", "xz"); (".br", "br") ].

(** The [MimeTypes] datastore.  [types_map] is the pair
    (non-strict, strict) of the library. *)
Record MimeTypes := {
  encodings_map : gmap string string;
  suffix_map : gmap string string;
  types_map : gmap string string * gmap string string;
}.

(** [MimeTypes.add_type(type, ext, strict)], as far as [guess_type] can
    tell.  The library's [add_type] also appends [ext] to the list
    [types_map_inv[strict][type]]; only [guess_extension] and
    [guess_all_extensions] read that table, and neither the script nor
    the handler calls them, so the table has no field here and nothing
    below speaks of it. *)
Definition MimeTypes_add_type (type ext : string) (strict : bool)
    (db : MimeTypes) : MimeTypes :=
  {| encodings_map := encodings_map db;
     suffix_map := suffix_map db;
     types_map :=
       if strict
       then (fst (types_map db), <[ext := type]> (snd (types_map db)))
       else (<[ext := type]> (fst (types_map db)), snd (types_map db)) |}.

(** One turn of the [while ext.lower() in self.suffix_map] loop of
    [MimeTypes.guess_type]. *)
Definition suffix_step (db : MimeTypes) (base ext : string)
    : option (string * string) :=
  match suffix_map db !! Str.lower ext with
  | Some repl => Some (posixpath.splitext (base ++ repl))
  | None => None
  end.

(** The loop itself.  Every value of the suffix map ends in an extension
    that is not one of its keys, so the second test always fails: the
    loop is written out for its two tests (see [suffix_loop_exits]). *)
Definition suffix_loop (db : MimeTypes) (base ext : string)
    : string * string :=
  match suffix_step db base ext with
  | Some (base1, ext1) =>
      match suffix_step db base1 ext1 with
      | Some be2 => be2
      | None => (base1, ext1)
      end
  | None => (base, ext)
  end.

(** [MimeTypes.guess_type(url, strict)] on a file-system path (the
    [data:] URL branch needs a scheme, which an absolute path has not). *)
Definition MimeTypes_guess_type (db : MimeTypes) (url : string)
    (strict : bool) : option string * option string :=
  let '(base, ext) := posixpath.splitext url in
  let '(base, ext) := suffix_loop db base ext in
  let '(encoding, ext) :=
    match encodings_map db !! ext with
    | Some enc => (Some enc, snd (posixpath.splitext base))
    | None => (None, ext)
    end in
  let ext := Str.lower ext in
  match snd (types_map db) !! ext with
  | Some t => (Some t, encoding)
  | None =>
      if strict then (None, encoding)
      else match fst (types_map db) !! ext with
           | Some t => (Some t, encoding)
           | None => (None, encoding)
           end
  end.

(** The module global [_db]: [None] until [init] has run. *)
Definition state := option MimeTypes.

Section Init.
(** What [MimeTypes()] plus the system's [mime.types] files put into
    the two type maps; the files only ever feed [add_type]. *)
Variable system_types : gmap string string * gmap string string.

Definition fresh_db : MimeTypes :=
  {| encodings_map := _encodings_map_default;
     suffix_map := _suffix_map_default;
     types_map := system_types |}.

(** [init()] with [files=None], as [add_type] and [guess_type] call it
    when [_db is None]. *)
Definition init (st : state) : MimeTypes :=
  match st with
  | Some db => db
  | None => fresh_db
  end.

(** Module-level [add_type(type, ext, strict=True)]. *)
Definition add_type (type ext : string) (strict : bool) (st : state)
    : state :=
  Some (MimeTypes_add_type type ext strict (init st)).

(** Module-level [guess_type(url, strict=True)]. *)
Definition guess_type (url : string) (strict : bool) (st : state)
    : (option string * option string) * state :=
  let db := init st in
  (MimeTypes_guess_type db url strict, Some db).
End Init.

End mimetypes.

(* ===================================================================== *)
(** * The operating system, as the script and the library observe it *)
(* ===================================================================== *)

Module os.

(** What a path resolves to.  The model has directories and regular
    files; it has no symbolic links, and a directory can always be
    entered. *)
Inductive node :=
| Directory (listable : bool)
| RegularFile (content : string) (mtime : Z) (readable : bool).

(** A file system answers, for an absolute path, what is there. *)
Definition filesystem := string -> option node.

(** [os.path.exists], [os.path.isdir], [os.path.isfile]. *)
Definition exists_ (fs : filesystem) (p : string) : bool :=
  match fs p with Some _ => true | None => false end.

Definition isdir (fs : filesystem) (p : string) : bool :=
  match fs p with Some (Directory _) => true | _ => false end.

Definition isfile (fs : filesystem) (p : string) : bool :=
  match fs p with Some (RegularFile _ _ _) => true | _ => false end.

(** [open(p, 'rb')] followed by [os.fstat], for a name the operating
    system accepts (see [valid_name]): the content and the modification
    time, or [None] for [OSError]. *)
Definition open_rb (fs : filesystem) (p : string) : option (string * Z) :=
  match fs p with
  | Some (RegularFile content mtime true) => Some (content, mtime)
  | _ => None
  end.

(** [os.listdir] succeeds. *)
Definition listdir_ok (fs : filesystem) (p : string) : bool :=
  match fs p with Some (Directory true) => true | _ => false end.

(** A name the operating system accepts: it has no NUL character and the
    file-system encoding can encode it ([encodable]).  For any other name
    [os.stat] and [open] raise [ValueError] (or its subclass
    [UnicodeEncodeError]), not [OSError]: [os.path.exists], [isdir] and
    [isfile] catch it and answer [False], [open] lets it pass.  The
    functions above say what is there under a name that is accepted; the
    handler, whose names come from the network, tests the name first. *)
Definition valid_name (encodable : string -> bool) (p : string) : bool :=
  negb (existsb (Ascii.eqb "000") (Str.chars p)) && encodable p.

End os.

Module datetime.

(** [datetime.datetime.fromtimestamp(t, timezone.utc)] gives a date for
    the years 1 to 9999 and raises [ValueError] or [OverflowError] for
    any other time. *)
Definition fromtimestamp_ok (t : Z) : bool :=
  (-62135596800 <=? t) && (t <? 253402300800).

End datetime.

(** The state of the running interpreter. *)
Inductive socket_state := NoSocket | Unbound | Bound | Listening | Closed.

Inductive syscall :=
| SysChdir (path : string)
| SysSocket
| SysBind (host : string) (port : Z)
| SysListen
| SysClose.

Record process := {
  cwd : string;                      (* os.getcwd() *)
  mime : mimetypes.state;            (* mimetypes._db *)
  sock : socket_state;               (* httpd.socket *)
  stdout : list string;              (* lines printed *)
  stderr : list string;              (* log lines and tracebacks *)
  sent : list string;                (* bytes written, one entry per connection *)
  calls : list syscall;              (* chdir and socket calls attempted *)
}.

Definition set_cwd (d : string) (p : process) : process :=
  {| cwd := d; mime := mime p; sock := sock p; stdout := stdout p;
     stderr := stderr p; sent := sent p; calls := calls p |}.

Definition set_mime (m : mimetypes.state) (p : process) : process :=
  {| cwd := cwd p; mime := m; sock := sock p; stdout := stdout p;
     stderr := stderr p; sent := sent p; calls := calls p |}.

Definition set_sock (s : socket_state) (p : process) : process :=
  {| cwd := cwd p; mime := mime p; sock := s; stdout := stdout p;
     stderr := stderr p; sent := sent p; calls := calls p |}.

Definition put_stdout (line : string) (p : process) : process :=
  {| cwd := cwd p; mime := mime p; sock := sock p;
     stdout := stdout p ++ [line];
     stderr := stderr p; sent := sent p; calls := calls p |}.

Definition put_stderr (lines : list string) (p : process) : process :=
  {| cwd := cwd p; mime := mime p; sock := sock p; stdout := stdout p;
     stderr := stderr p ++ lines; sent := sent p; calls := calls p |}.

Definition put_sent (bytes : string) (p : process) : process :=
  {| cwd := cwd p; mime := mime p; sock := sock p; stdout := stdout p;
     stderr := stderr p; sent := sent p ++ [bytes]; calls := calls p |}.

Definition put_call (c : syscall) (p : process) : process :=
  {| cwd := cwd p; mime := mime p; sock := sock p; stdout := stdout p;
     stderr := stderr p; sent := sent p; calls := calls p ++ [c] |}.

(* ===================================================================== *)
(** * http.server *)
(* ===================================================================== *)

Definition CRLF : string := String "013" (String "010" EmptyString).
Definition LF : string := String "010" EmptyString.
Definition QUOTE : string := String "034" EmptyString.

(** What the library computes from data that is of no concern here. *)
Record Library := {
  (** [SimpleHTTPRequestHandler.translate_path]: serving directory and
      request path to a local file name. *)
  translate_path : string -> string -> string;
  (** [urllib.parse.urlsplit(path).path]. *)
  url_path : string -> string;
  (** The redirect target of a directory requested without its slash. *)
  slash_url : string -> string;
  (** [version_string()] and [date_time_string(timestamp)]; the latter
      for a time that [datetime.fromtimestamp_ok] accepts, or for now. *)
  version_string : string;
  date_time_string : option Z -> string;
  (** The table [BaseHTTPRequestHandler.responses]. *)
  responses : Z -> option (string * string);
  (** [error_message_format % {...}], encoded. *)
  error_page : Z -> string -> string -> string;
  (** The page [list_directory] builds, encoded, and its charset. *)
  directory_listing : string -> string -> string;
  filesystem_encoding : string;
  (** [email.utils.parsedate_to_datetime] on the value of
      [If-Modified-Since], as [send_head] uses it: the seconds since the
      epoch when the value is a well-formed date in UTC (or without a
      zone), [None] otherwise. *)
  parsedate_utc : string -> option Z;
  (** [os.fsencode] accepts the name: it stands for no string with a
      lone surrogate. *)
  fsencodable : string -> bool;
}.

(** A request handler object: one per connection. *)
Record handler := {
  directory : string;
  requestline : string;
  command : option string;
  path : string;
  request_version : string;
  headers : list (string * string);
  close_connection : bool;
  _headers_buffer : list string;
  wfile : string;                    (* bytes written to the socket *)
  log : list string;                 (* messages of log_message *)
  raised : option string;            (* the exception that ended the
                                        handler's work, if one did *)
}.

Definition set_request (rl : string) (c : option string) (pa v : string)
    (hs : list (string * string)) (h : handler) : handler :=
  {| directory := directory h; requestline := rl; command := c; path := pa;
     request_version := v; headers := hs;
     close_connection := close_connection h;
     _headers_buffer := _headers_buffer h; wfile := wfile h; log := log h;
     raised := raised h |}.

Definition set_close (b : bool) (h : handler) : handler :=
  {| directory := directory h; requestline := requestline h;
     command := command h; path := path h;
     request_version := request_version h; headers := headers h;
     close_connection := b;
     _headers_buffer := _headers_buffer h; wfile := wfile h; log := log h;
     raised := raised h |}.

Definition set_buffer (b : list string) (h : handler) : handler :=
  {| directory := directory h; requestline := requestline h;
     command := command h; path := path h;
     request_version := request_version h; headers := headers h;
     close_connection := close_connection h;
     _headers_buffer := b; wfile := wfile h; log := log h;
     raised := raised h |}.

(** [self.wfile.write(bytes)]. *)
Definition write (bytes : string) (h : handler) : handler :=
  {| directory := directory h; requestline := requestline h;
     command := command h; path := path h;
     request_version := request_version h; headers := headers h;
     close_connection := close_connection h;
     _headers_buffer := _headers_buffer h; wfile := wfile h ++ bytes;
     log := log h; raised := raised h |}.

(** [log_message]: the message goes to [sys.stderr] (its address and time
    prefix is left out). *)
Definition log_message (msg : string) (h : handler) : handler :=
  {| directory := directory h; requestline := requestline h;
     command := command h; path := path h;
     request_version := request_version h; headers := headers h;
     close_connection := close_connection h;
     _headers_buffer := _headers_buffer h; wfile := wfile h;
     log := log h ++ [msg]; raised := raised h |}.

(** [raise e] inside a method of the handler, where nothing catches it:
    the handler does nothing more, and [socketserver] finds the exception
    when [finish_request] returns. *)
Definition raise_ (e : string) (h : handler) : handler :=
  {| directory := directory h; requestline := requestline h;
     command := command h; path := path h;
     request_version := request_version h; headers := headers h;
     close_connection := close_connection h;
     _headers_buffer := _headers_buffer h; wfile := wfile h;
     log := log h; raised := Some e |}.

(** [self.headers.get(name)]: header names compare without case. *)
Definition get_header (name : string) (hs : list (string * string))
    : option string :=
  match List.find (fun kv => String.eqb (Str.lower (fst kv)) (Str.lower name)) hs with
  | Some kv => Some (snd kv)
  | None => None
  end.

Definition protocol_version : string := "HTTP/1.0".
Definition error_content_type : string := "text/html;charset=utf-8".

(** The methods a handler class may override; the script overrides
    [end_headers]. *)
Class HandlerClass := { self_end_headers : handler -> handler }.

(** What [handle_one_request] finds on the connection: the outcome of
    reading the request line and of [parse_request]. *)
Inductive request_line :=
| TooLong                              (* more than 65536 bytes *)
| EndOfStream                          (* nothing to read *)
| Blank                                (* no words: nothing is sent *)
| Rejected (line : string) (cmd : option string) (version : string)
           (code : Z) (message : string) (explain : option string)
                                       (* parse_request sent an error *)
| Parsed (line cmd target version : string)
         (hdrs : list (string * string)).

Section HTTPServer.

Variable lib : Library.
Variable fs : os.filesystem.
Variable system_types : gmap string string * gmap string string.

(** ** BaseHTTPRequestHandler *)

Definition log_request (code : Z) (h : handler) : handler :=
  log_message (QUOTE ++ requestline h ++ QUOTE ++ " " ++ Str.of_Z code
               ++ " -") h.

Definition log_error (code : Z) (message : string) (h : handler)
    : handler :=
  log_message ("code " ++ Str.of_Z code ++ ", message " ++ message) h.

Definition send_response_only (code : Z) (message : option string)
    (h : handler) : handler :=
  if String.eqb (request_version h) "HTTP/0.9" then h
  else
    let message :=
      match message with
      | Some m => m
      | None => match responses lib code with
                | Some (short, _) => short
                | None => ""
                end
      end in
    set_buffer (_headers_buffer h ++
                [protocol_version ++ " " ++ Str.of_Z code ++ " "
                 ++ message ++ CRLF]) h.

Definition send_header (keyword value : string) (h : handler) : handler :=
  let h :=
    if String.eqb (request_version h) "HTTP/0.9" then h
    else set_buffer (_headers_buffer h ++
                     [keyword ++ ": " ++ value ++ CRLF]) h in
  if String.eqb (Str.lower keyword) "connection" then
    if String.eqb (Str.lower value) "close" then set_close true h
    else if String.eqb (Str.lower value) "keep-alive"
         then set_close false h
         else h
  else h.

Definition flush_headers (h : handler) : handler :=
  set_buffer [] (write (Str.join (_headers_buffer h)) h).

Definition BaseHTTPRequestHandler_end_headers (h : handler) : handler :=
  if String.eqb (request_version h) "HTTP/0.9" then h
  else flush_headers (set_buffer (_headers_buffer h ++ [CRLF]) h).

Definition send_response (code : Z) (message : option string)
    (h : handler) : handler :=
  send_header "Date" (date_time_string lib None)
    (send_header "Server" (version_string lib)
       (send_response_only code message (log_request code h))).

Section Methods.
Context {cls : HandlerClass}.

Definition send_error (code : Z) (message explain : option string)
    (h : handler) : handler :=
  let '(shortmsg, longmsg) :=
    match responses lib code with
    | Some sl => sl
    | None => ("???", "???")
    end in
  let message := match message with Some m => m | None => shortmsg end in
  let explain := match explain with Some e => e | None => longmsg end in
  let h := log_error code message h in
  let h := send_response code (Some message) h in
  let h := send_header "Connection" "close" h in
  let body :=
    if (200 <=? code)
       && negb ((code =? 204) || (code =? 205) || (code =? 304))
    then Some (error_page lib code message explain)
    else None in
  let h :=
    match body with
    | Some b =>
        send_header "Content-Length" (Str.of_Z (Z.of_nat (String.length b)))
          (send_header "Content-Type" error_content_type h)
    | None => h
    end in
  let h := self_end_headers h in
  match body with
  | Some b =>
      if negb (bool_decide (command h = Some "HEAD"))
         && negb (String.eqb b "")
      then write b h else h
  | None => h
  end.

(** ** SimpleHTTPRequestHandler *)

Definition extensions_map : gmap string string :=
  list_to_map [ (".gz", "application/gzip");
                (".Z", "application/octet-stream");
                (".bz2", "application/x-bzip2");
                (".xz", "application/x-xz") ].

Definition guess_type (path : string) (m : mimetypes.state)
    : string * mimetypes.state :=
  let '(base, ext) := posixpath.splitext path in
  match extensions_map !! ext with
  | Some t => (t, m)
  | None =>
      let ext := Str.lower ext in
      match extensions_map !! ext with
      | Some t => (t, m)
      | None =>
          let '((guess, _), m) :=
            mimetypes.guess_type system_types path true m in
          match guess with
          | Some g =>
              if String.eqb g "" then ("application/octet-stream", m)
              else (g, m)
          | None => ("application/octet-stream", m)
          end
      end
  end.

Definition list_directory (local : string) (h : handler)
    : handler * option string :=
  if negb (os.listdir_ok fs local)
  then (send_error 404 (Some "No permission to list directory") None h,
        None)
  else
    let encoded := directory_listing lib local (path h) in
    let h := send_response 200 None h in
    let h := send_header "Content-type"
               ("text/html; charset=" ++ filesystem_encoding lib) h in
    let h := send_header "Content-Length"
               (Str.of_Z (Z.of_nat (String.length encoded))) h in
    (self_end_headers h, Some encoded).

(** The time [send_head] compares the modification time of the file
    with: the value of [If-Modified-Since], when there is no
    [If-None-Match] and the value is a date in UTC. *)
Definition if_modified_since (hdrs : list (string * string)) : option Z :=
  match get_header "If-Modified-Since" hdrs,
        get_header "If-None-Match" hdrs with
  | Some ims, None => parsedate_utc lib ims
  | _, _ => None
  end.

(** The conditional-request test of [send_head]: [last_modif <= ims]. *)
Definition use_browser_cache (hdrs : list (string * string))
    (mtime : Z) : bool :=
  match if_modified_since hdrs with
  | Some ims => mtime <=? ims
  | None => false
  end.

(** [send_head] from [ctype = self.guess_type(path)] on.  The handler
    reads and, if need be, initialises the [mimetypes] registry [m];
    it touches nothing else of the process.

    [open] is inside [try ... except OSError]: a name the operating
    system does not accept makes it raise [ValueError], which is not
    caught.  The modification time of the file is turned into a date
    twice, for the comparison with [If-Modified-Since] when that is made,
    and for the [Last-Modified] header; either raises for a time outside
    the years 1 to 9999, the second one after three headers have been
    put into the buffer, which is then never flushed. *)
Definition send_file_head (local : string) (h : handler)
    (m : mimetypes.state) : handler * mimetypes.state * option string :=
  let '(ctype, m) := guess_type local m in
  if Str.endswith local "/"
  then (send_error 404 (Some "File not found") None h, m, None)
  else if negb (os.valid_name (fsencodable lib) local)
  then (raise_ "ValueError" h, m, None)
  else
    match os.open_rb fs local with
    | None => (send_error 404 (Some "File not found") None h, m, None)
    | Some (content, mtime) =>
        if match if_modified_since (headers h) with
           | Some _ => negb (datetime.fromtimestamp_ok mtime)
           | None => false
           end
        then (raise_ "ValueError" h, m, None)
        else if use_browser_cache (headers h) mtime
        then (self_end_headers (send_response 304 None h), m, None)
        else
          let h := send_response 200 None h in
          let h := send_header "Content-type" ctype h in
          let h := send_header "Content-Length"
                     (Str.of_Z (Z.of_nat (String.length content))) h in
          if negb (datetime.fromtimestamp_ok mtime)
          then (raise_ "ValueError" h, m, None)
          else
            let h := send_header "Last-Modified"
                       (date_time_string lib (Some mtime)) h in
            (self_end_headers h, m, Some content)
    end.

(** [os.path.isdir] and [os.path.isfile] on a name from the network. *)
Definition path_isdir (p : string) : bool :=
  os.valid_name (fsencodable lib) p && os.isdir fs p.

Definition path_isfile (p : string) : bool :=
  os.valid_name (fsencodable lib) p && os.isfile fs p.

Definition send_head (h : handler) (m : mimetypes.state)
    : handler * mimetypes.state * option string :=
  let local := translate_path lib (directory h) (path h) in
  if path_isdir local then
    if negb (Str.endswith (url_path lib (path h)) "/") then
      let h := send_response 301 None h in
      let h := send_header "Location" (slash_url lib (path h)) h in
      let h := send_header "Content-Length" "0" h in
      (self_end_headers h, m, None)
    else if path_isfile (posixpath.join local "index.html")
    then send_file_head (posixpath.join local "index.html") h m
    else if path_isfile (posixpath.join local "index.htm")
    then send_file_head (posixpath.join local "index.htm") h m
    else let '(h, f) := list_directory local h in (h, m, f)
  else send_file_head local h m.

Definition do_GET (h : handler) (m : mimetypes.state)
    : handler * mimetypes.state :=
  let '(h, m, f) := send_head h m in
  match f with
  | Some content => (write content h, m)
  | None => (h, m)
  end.

Definition do_HEAD (h : handler) (m : mimetypes.state)
    : handler * mimetypes.state :=
  let '(h, m, f) := send_head h m in (h, m).

Definition handle_one_request (rl : request_line) (h : handler)
    (m : mimetypes.state) : handler * mimetypes.state :=
  match rl with
  | TooLong =>
      (send_error 414 None None
         (set_request "" (Some "") (path h) "" (headers h) h), m)
  | EndOfStream => (set_close true h, m)
  | Blank => (h, m)
  | Rejected line cmd version code message explain =>
      (send_error code (Some message) explain
         (set_request line cmd (path h) version (headers h) h), m)
  | Parsed line cmd target version hdrs =>
      let h := set_request line (Some cmd) target version hdrs h in
      if String.eqb cmd "GET" then do_GET h m
      else if String.eqb cmd "HEAD" then do_HEAD h m
      else (send_error 501
              (Some ("Unsupported method ('" ++ cmd ++ "')")) None h, m)
  end.

End Methods.

End HTTPServer.

(* ===================================================================== *)
(** * The interpreter: exceptions, [with], and how a script ends *)
(* ===================================================================== *)

Inductive exn :=
| KeyboardInterrupt
| OSError (errno : string)
| MemoryError.

(** How a piece of the script ends: it returns, it raises, or it is still
    inside [serve_forever] when the observed events run out. *)
Inductive outcome (A : Type) :=
| Return (a : A)
| Raise (e : exn)
| Serving.

Arguments Return {A} a.
Arguments Raise {A} e.
Arguments Serving {A}.

Definition M (A : Type) : Type := process -> process * outcome A.

Definition ret {A} (a : A) : M A := fun p => (p, Return a).

Definition bind {A B} (m : M A) (k : A -> M B) : M B :=
  fun p =>
    match m p with
    | (p1, Return a) => k a p1
    | (p1, Raise e) => (p1, Raise e)
    | (p1, Serving) => (p1, Serving)
    end.

Notation "x <- m ;; k" := (bind m (fun x => k))
  (at level 100, m at level 99, right associativity).
Notation "m ;; k" := (bind m (fun _ => k))
  (at level 100, right associativity).

(** [try: body / except E: handler], [E] given by the test [catches]. *)
Definition try_except {A} (body : M A) (catches : exn -> bool)
    (handler : M A) : M A :=
  fun p =>
    match body p with
    | (p1, Raise e) => if catches e then handler p1 else (p1, Raise e)
    | r => r
    end.

(** [try: body / except: cleanup; raise]. *)
Definition try_reraise {A} (body : M A) (cleanup : M unit) : M A :=
  fun p =>
    match body p with
    | (p1, Raise e) => (fst (cleanup p1), Raise e)
    | r => r
    end.

(** [with ctor as x: body], for a context manager whose [__enter__]
    returns the object and whose [__exit__] returns [None]: [exit] runs
    whether the body returns or raises, and an exception goes on. *)
Definition with_ {A B} (ctor : M A) (exit : A -> M unit) (body : A -> M B)
    : M B :=
  fun p =>
    match ctor p with
    | (p1, Return a) =>
        match body a p1 with
        | (p2, Serving) => (p2, Serving)
        | (p2, r) => (fst (exit a p2), r)
        end
    | (p1, Raise e) => (p1, Raise e)
    | (p1, Serving) => (p1, Serving)
    end.

Definition is_KeyboardInterrupt (e : exn) : bool :=
  match e with KeyboardInterrupt => true | _ => false end.

(** The exit status of the interpreter.  An uncaught exception prints a
    traceback and gives status 1; an uncaught [KeyboardInterrupt] makes
    the interpreter end itself with SIGINT, which a shell reports as
    128 + 2. *)
Definition exit_status {A} (o : outcome A) : option Z :=
  match o with
  | Return _ => Some 0
  | Raise KeyboardInterrupt => Some 130
  | Raise _ => Some 1
  | Serving => None
  end.

(* ===================================================================== *)
(** * The world a launch happens in *)
(* ===================================================================== *)

(** Places of the start-up code at which the interrupt signal may arrive:
    before [add_type], before the test for [dist] (an interrupt during
    [chdir] ends the script the same way), before [bind], before either
    [print]. *)
Inductive point :=
| AtAddType | AtExists | AtBind | AtPrintServing | AtPrintNote.

#[export] Instance point_eq_dec : EqDecision point.
Proof. solve_decision. Defined.

(** What happens while [serve_forever] runs: a connection arrives, or an
    exception leaves the loop ([KeyboardInterrupt] for the interrupt
    signal). *)
Inductive event :=
| Connection (rl : request_line)
| Exception (e : exn).

Record environment := {
  launch_dir : string;
  files : os.filesystem;
  system_types : gmap string string * gmap string string;
  library : Library;
  bind_errno : option string;     (* the error of bind(), if it fails *)
  sigint : option point;          (* an interrupt during start-up *)
  events : list event;
  chdir_errno : option string;    (* the error of chdir(), if it fails on
                                     a directory: EACCES, when [dist]
                                     cannot be entered *)
}.

(* ===================================================================== *)
(** * serve.py *)
(* ===================================================================== *)

(** [PORT = 8080] *)
Definition PORT : Z := 8080.

(** [class DdsHTTPRequestHandler(http.server.SimpleHTTPRequestHandler)]:
    [end_headers] adds the two isolation headers, then calls
    [super().end_headers()]. *)
Definition DdsHTTPRequestHandler_end_headers (h : handler) : handler :=
  let h := send_header "Cross-Origin-Embedder-Policy" "require-corp" h in
  let h := send_header "Cross-Origin-Opener-Policy" "same-origin" h in
  BaseHTTPRequestHandler_end_headers h.

Definition DdsHTTPRequestHandler : HandlerClass :=
  {| self_end_headers := DdsHTTPRequestHandler_end_headers |}.

Section Script.

Variable env : environment.

(** The interrupt signal raises [KeyboardInterrupt] in the main thread
    when it arrives at the given place. *)
Definition interruptible {A} (pt : point) (m : M A) : M A :=
  fun p =>
    if bool_decide (sigint env = Some pt)
    then (p, Raise KeyboardInterrupt)
    else m p.

(** ** os *)

Definition os_path_exists (rel : string) : M bool :=
  interruptible AtExists
    (fun p => (p, Return (os.exists_ (files env) (posixpath.join (cwd p) rel)))).

Definition os_chdir (rel : string) : M unit :=
  fun p =>
    let target := posixpath.join (cwd p) rel in
    let p := put_call (SysChdir target) p in
    match files env target with
    | Some (os.Directory _) =>
        match chdir_errno env with
        | Some errno => (p, Raise (OSError errno))
        | None => (set_cwd target p, Return tt)
        end
    | Some (os.RegularFile _ _ _) => (p, Raise (OSError "ENOTDIR"))
    | None => (p, Raise (OSError "ENOENT"))
    end.

Definition print (line : string) (pt : point) : M unit :=
  interruptible pt (fun p => (put_stdout line p, Return tt)).

(** ** socketserver.TCPServer *)

Definition server_bind (host : string) (port : Z) : M unit :=
  interruptible AtBind
    (fun p =>
       let p := put_call (SysBind host port) p in
       match bind_errno env with
       | Some errno => (p, Raise (OSError errno))
       | None => (set_sock Bound p, Return tt)
       end).

Definition server_activate : M unit :=
  fun p => (set_sock Listening (put_call SysListen p), Return tt).

Definition server_close : M unit :=
  fun p => (set_sock Closed (put_call SysClose p), Return tt).

(** [TCPServer.__init__(server_address, RequestHandlerClass)]. *)
Definition TCPServer (host : string) (port : Z) (cls : HandlerClass)
    : M HandlerClass :=
  (fun p => (set_sock Unbound (put_call SysSocket p), Return tt)) ;;
  try_reraise (server_bind host port ;; server_activate) server_close ;;
  ret cls.

(** The handler object [finish_request] makes for a connection:
    [SimpleHTTPRequestHandler.__init__] takes [os.getcwd()] as its
    directory, [handle] sets [close_connection]. *)
Definition new_handler (dir : string) : handler :=
  {| directory := dir; requestline := ""; command := None; path := "";
     request_version := "HTTP/0.9"; headers := [];
     close_connection := true; _headers_buffer := []; wfile := "";
     log := []; raised := None |}.

(** [BaseServer.handle_error]: what [_handle_request_noblock] prints when
    the handler has raised an [Exception]; the server then shuts the
    connection down and goes on. *)
Definition handle_error : list string :=
  ["----------------------------------------";
   "Exception occurred during processing of request";
   "Traceback (most recent call last):";
   "----------------------------------------"].

(** [finish_request] inside [_handle_request_noblock]: the handler
    handles the request; what it wrote and logged leaves the process, and
    so does the report of [handle_error] when the handler raised.  What
    is in the header buffer and was not flushed is lost.  With
    [protocol_version = "HTTP/1.0"] the handler never clears
    [close_connection], so that a connection carries one request
    ([handle_closes]). *)
Definition finish_request (cls : HandlerClass) (rl : request_line)
    (p : process) : process :=
  let '(h, m) :=
    handle_one_request (library env) (files env) (system_types env)
      (cls := cls) rl (new_handler (cwd p)) (mime p) in
  put_sent (wfile h)
    (put_stderr (log h ++ match raised h with
                          | Some _ => handle_error
                          | None => []
                          end)
       (set_mime m p)).

(** [serve_forever]: connections are handled one after the other; the
    loop ends only by an exception. *)
Fixpoint serve_forever (cls : HandlerClass) (evs : list event) : M unit :=
  fun p =>
    match evs with
    | [] => (p, Serving)
    | Connection rl :: evs' =>
        serve_forever cls evs' (finish_request cls rl p)
    | Exception e :: _ => (p, Raise e)
    end.

(** ** The script *)

(** [mimetypes.add_type('application/octet-stream', '.dds')] *)
Definition module_init : M unit :=
  interruptible AtAddType
    (fun p =>
       (set_mime (mimetypes.add_type (system_types env)
                    "application/octet-stream" ".dds" true (mime p)) p,
        Return tt)).

Definition serving_line : string :=
  "🚀 Serving at http://localhost:" ++ Str.of_Z PORT.
Definition note_line : string :=
  "📁 DDS files will be served with correct MIME type".
Definition stopped_line : string := LF ++ "👋 Server stopped".

(** The [if __name__ == "__main__":] block. *)
Definition main : M unit :=
  (dist <- os_path_exists "dist" ;;
   if dist then os_chdir "dist" else ret tt) ;;
  with_ (TCPServer "" PORT DdsHTTPRequestHandler)
    (fun _ => server_close)
    (fun httpd =>
       print serving_line AtPrintServing ;;
       print note_line AtPrintNote ;;
       try_except (serve_forever httpd (events env))
         is_KeyboardInterrupt
         (fun p => (put_stdout stopped_line p, Return tt))).

Definition launch : process :=
  {| cwd := launch_dir env; mime := None; sock := NoSocket; stdout := [];
     stderr := []; sent := []; calls := [] |}.

(** Running the file as a script, to its exit status. *)
Definition run : process * option Z :=
  let '(p, o) := (module_init ;; main) launch in
  (match o with
   | Raise e => put_stderr ["Traceback (most recent call last):"] p
   | _ => p
   end,
   exit_status o).

End Script.

(* ===================================================================== *)
(** * The vocabulary of the specification *)
(* ===================================================================== *)

(** An HTTP response, and the bytes that carry it. *)
Record response := {
  status : Z;
  reason : string;
  fields : list (string * string);
  body : string;
}.

Definition status_line (code : Z) (phrase : string) : string :=
  protocol_version ++ " " ++ Str.of_Z code ++ " " ++ phrase ++ CRLF.

Definition header_line (f : string * string) : string :=
  fst f ++ ": " ++ snd f ++ CRLF.

Definition to_bytes (r : response) : string :=
  Str.join (status_line (status r) (reason r)
            :: (map header_line (fields r) ++ [CRLF])%list)
  ++ body r.

Definition COEP : string * string :=
  ("Cross-Origin-Embedder-Policy", "require-corp").
Definition COOP : string * string :=
  ("Cross-Origin-Opener-Policy", "same-origin").

(** The request version a request line is answered under, when it is
    answered at all. *)
Definition answered_as (rl : request_line) : option string :=
  match rl with
  | TooLong => Some ""
  | EndOfStream | Blank => None
  | Rejected _ _ version _ _ _ => Some version
  | Parsed _ _ _ version _ => Some version
  end.

(** The phrase [send_response(code)] puts on the status line. *)
Definition phrase (lib : Library) (code : Z) : string :=
  match responses lib code with
  | Some (short, _) => short
  | None => ""
  end.

(** The two headers of [send_response]. *)
Definition server_fields (lib : Library) : list (string * string) :=
  [("Server", version_string lib); ("Date", date_time_string lib None)].

(** The connections [serve_forever] handles: those before the first
    exception. *)
Fixpoint connections (evs : list event) : list request_line :=
  match evs with
  | Connection rl :: evs' => rl :: connections evs'
  | _ => []
  end.

(** How [serve_forever] ends on the observed events. *)
Fixpoint stops (evs : list event) : option exn :=
  match evs with
  | Connection _ :: evs' => stops evs'
  | Exception e :: _ => Some e
  | [] => None
  end.

Definition dist_path (env : environment) : string :=
  posixpath.join (launch_dir env) "dist".

(** Start-up gets as far as [serve_forever]: no interrupt on the way, the
    port can be bound, [dist] is not a regular file, and, if it is a
    directory, it can be entered. *)
Definition starts (env : environment) : bool :=
  bool_decide (sigint env = None)
  && bool_decide (bind_errno env = None)
  && negb (os.isfile (files env) (dist_path env))
  && (negb (os.isdir (files env) (dist_path env))
      || bool_decide (chdir_errno env = None)).

(** The directory files are served from. *)
Definition root (env : environment) : string :=
  if os.isdir (files env) (dist_path env) then dist_path env
  else launch_dir env.

(** The registry after the script's [add_type]. *)
Definition registry (env : environment) : mimetypes.MimeTypes :=
  mimetypes.MimeTypes_add_type "application/octet-stream" ".dds" true
    (mimetypes.fresh_db (system_types env)).

(** The process when [serve_forever] is entered. *)
Definition ready (env : environment) : process :=
  {| cwd := root env;
     mime := Some (registry env);
     sock := Listening;
     stdout := [serving_line; note_line];
     stderr := [];
     sent := [];
     calls := ((if os.isdir (files env) (dist_path env)
                then [SysChdir (dist_path env)] else [])
               ++ [SysSocket; SysBind "" PORT; SysListen])%list |}.

(** What the handler of the script writes for one request, when it works
    in directory [dir] with the registry of the script. *)
Definition answer (env : environment) (dir : string) (rl : request_line)
    : string :=
  wfile (fst (handle_one_request (library env) (files env)
                (system_types env) (cls := DdsHTTPRequestHandler) rl
                (new_handler dir) (Some (registry env)))).

(** The same environment with other events. *)
Definition with_events (env : environment) (evs : list event)
    : environment :=
  {| launch_dir := launch_dir env; files := files env;
     system_types := system_types env; library := library env;
     bind_errno := bind_errno env; sigint := sigint env; events := evs;
     chdir_errno := chdir_errno env |}.

(** The entry for an extension in the strict table of the registry. *)
Definition registered (m : mimetypes.state) (ext : string) : option string :=
  match m with
  | Some db => snd (mimetypes.types_map db) !! ext
  | None => None
  end.

(** The [bind] and [chdir] calls among the system calls made. *)
Definition binds (cs : list syscall) : list syscall :=
  List.filter (fun c => match c with SysBind _ _ => true | _ => false end) cs.


Definition count_binds (cs : list syscall) : nat := List.length (binds cs).

(** What a handler that answers under a version other than HTTP/0.9 has
    buffered and written. *)
Definition http (h : handler) (cmd : option string) (buf : list string)
    (w : string) : Prop :=
  request_version h <> "HTTP/0.9" /\ command h = cmd
  /\ _headers_buffer h = buf /\ wfile h = w.

(** [send_header] for each of a list of fields, in order. *)
Definition send_headers (hs : list (string * string)) (h : handler)
    : handler :=
  fold_left (fun h f => send_header (fst f) (snd f) h) hs h.

(** [send_error] gives the response a page. *)
Definition has_page (code : Z) : bool :=
  (200 <=? code) && negb ((code =? 204) || (code =? 205) || (code =? 304)).

(** The response [send_error] produces under the script's handler, for a
    request with command [cmd]. *)
Definition error_response (lib : Library) (cmd : option string) (code : Z)
    (message explain : option string) : response :=
  let sl := match responses lib code with
            | Some sl => sl
            | None => ("???", "???")
            end in
  let message := match message with Some m => m | None => fst sl end in
  let explain := match explain with Some e => e | None => snd sl end in
  let page := error_page lib code message explain in
  {| status := code;
     reason := message;
     fields := (server_fields lib ++ [("Connection", "close")]
                ++ (if has_page code
                    then [("Content-Type", error_content_type);
                          ("Content-Length",
                           Str.of_Z (Z.of_nat (String.length page)))]
                    else [])
                ++ [COEP; COOP])%list;
     body := if has_page code && negb (bool_decide (cmd = Some "HEAD"))
             then page else "" |}.

(** The response to a request for a file that is there: with its content
    for GET, without for HEAD. *)
Definition file_response (lib : Library) (ctype content : string)
    (mtime : Z) (with_body : bool) : response :=
  {| status := 200;
     reason := phrase lib 200;
     fields := (server_fields lib
                ++ [("Content-type", ctype);
                    ("Content-Length",
                     Str.of_Z (Z.of_nat (String.length content)));
                    ("Last-Modified", date_time_string lib (Some mtime))]
                ++ [COEP; COOP])%list;
     body := if with_body then content else "" |}.

(** A small world to run the script in: the launch directory [/srv] holds
    [dist] (a directory, a regular file, or nothing, as [dist] says) and
    one texture below it. *)
Definition demo_library : Library :=
  {| translate_path := fun dir target => dir ++ target;
     url_path := fun target => target;
     slash_url := fun target => target ++ "/";
     version_string := "SimpleHTTP/0.6 Python/3.11.2";
     date_time_string := fun _ => "Thu, 01 Jan 1970 00:00:00 GMT";
     responses := fun code =>
       if code =? 200 then Some ("OK", "Request fulfilled, document follows")
       else if code =? 304
       then Some ("Not Modified", "Document has not changed since given time")
       else if code =? 404
       then Some ("Not Found", "Nothing matches the given URI")
       else None;
     error_page := fun code message _ =>
       "<p>Error code: " ++ Str.of_Z code ++ "</p><p>Message: " ++ message
       ++ ".</p>";
     directory_listing := fun _ target =>
       "<h1>Directory listing for " ++ target ++ "</h1>";
     filesystem_encoding := "utf-8";
     parsedate_utc := fun value =>
       if String.eqb value "Tue, 03 Nov 2026 00:00:00 GMT"
       then Some 1793664000 else None;
     fsencodable := fun _ => true |}.

Definition demo_files (dist : option os.node) : os.filesystem :=
  fun p =>
    if String.eqb p "/srv" then Some (os.Directory true)
    else if String.eqb p "/srv/dist" then dist
    else if String.eqb p "/srv/dist/" then dist
    else if String.eqb p "/srv/dist/tex.dds"
    then Some (os.RegularFile "DDS |" 7 true)
    else None.

Definition demo (dist : option os.node) (bind : option string)
    (sig : option point) (evs : list event) : environment :=
  {| launch_dir := "/srv";
     files := demo_files dist;
     system_types := (∅, {[ ".dds" := "image/vnd-ms.dds" ]});
     library := demo_library;
     bind_errno := bind;
     sigint := sig;
     events := evs;
     chdir_errno := None |}.

(** Request lines, as [parse_request] leaves them. *)
Definition GET (target version : string) (hdrs : list (string * string))
    : request_line :=
  Parsed ("GET " ++ target ++ " " ++ version) "GET" target version hdrs.

(** [GET target] without a version: an HTTP/0.9 request. *)
Definition GET09 (target : string) : request_line :=
  Parsed ("GET " ++ target) "GET" target "HTTP/0.9" [].

(** The process after [serve_forever] has handled the given
    connections. *)
Definition served (env : environment) (p : process)
    (rls : list request_line) : process :=
  fold_left (fun p rl => finish_request env DdsHTTPRequestHandler rl p) rls p.

(** The handler will close the connection after the request at hand. *)
Definition closing (h : handler) : Prop := close_connection h = true.

(** How the script ends once [serve_forever] has handled its connections
    and has stopped, or has not. *)
Definition ends (p : process) (stop : option exn) : process * option Z :=
  match stop with
  | None => (p, None)
  | Some KeyboardInterrupt =>
      (set_sock Closed (put_call SysClose (put_stdout stopped_line p)), Some 0)
  | Some _ =>
      (put_stderr ["Traceback (most recent call last):"]
         (set_sock Closed (put_call SysClose p)), Some 1)
  end.

(* ===================================================================== *)
(** * The base class, for comparison *)
(* ===================================================================== *)

(** [http.server.SimpleHTTPRequestHandler], the class the script derives
    its handler from: [end_headers] is the one of the library. *)
Definition SimpleHTTPRequestHandler : HandlerClass :=
  {| self_end_headers := BaseHTTPRequestHandler_end_headers |}.

(** What a handler of the base class writes for the same request, in the
    same directory and with the same registry. *)
Definition base_answer (env : environment) (dir : string) (rl : request_line)
    : string :=
  wfile (fst (handle_one_request (library env) (files env)
                (system_types env) (cls := SimpleHTTPRequestHandler) rl
                (new_handler dir) (Some (registry env)))).

(** A response with the two isolation headers put after its own. *)
Definition isolate (r : response) : response :=
  {| status := status r; reason := reason r;
     fields := (fields r ++ [COEP; COOP])%list; body := body r |}.

(** None of the fields has the name of an isolation header. *)
Definition plain (fs : list (string * string)) : bool :=
  forallb (fun f =>
             negb (String.eqb (Str.lower (fst f)) (Str.lower (fst COEP)))
             && negb (String.eqb (Str.lower (fst f)) (Str.lower (fst COOP))))
          fs.

(** A handler of the base class and one of the script have written the
    same response, but for the two headers. *)
Definition paired (g h : handler) (c : option string) : Prop :=
  exists r,
    http g c [] (to_bytes r) /\ http h c [] (to_bytes (isolate r))
    /\ plain (fields r) = true.

(** The two handlers have written the same response but for the two
    headers, or neither has written anything: the handler raised before
    the header block was flushed. *)
Definition paired_or_silent (g h : handler) (c : option string) : Prop :=
  paired g h c \/ (wfile g = "" /\ wfile h = "").

(** The exception that ends the handling of a request by the script's
    handler, if one does. *)
Definition exception_of (env : environment) (dir : string)
    (rl : request_line) : option string :=
  raised (fst (handle_one_request (library env) (files env)
                 (system_types env) (cls := DdsHTTPRequestHandler) rl
                 (new_handler dir) (Some (registry env)))).

(** A launch directory without [dist] that holds one texture whose name
    is in capitals; the system knows no type for it. *)
Definition demo_upper_case : environment :=
  {| launch_dir := "/srv";
     files := fun p =>
       if String.eqb p "/srv" then Some (os.Directory true)
       else if String.eqb p "/srv/TEX.DDS"
       then Some (os.RegularFile "DDS |" 7 true)
       else None;
     system_types := (∅, ∅);
     library := demo_library;
     bind_errno := None;
     sigint := None;
     events := [Connection (GET "/TEX.DDS" "HTTP/1.1" [])];
     chdir_errno := None |}.


(** The last component of a name, that is, what follows its last slash,
    has a character other than a dot: the condition under which
    [splitext] finds an extension that is put after the name. *)
Definition has_stem (pre : string) : bool :=
  let l := Str.chars pre in
  existsb (fun c => negb (Ascii.eqb c "."))
          (drop (Z.to_nat (Str.rfind "/" l + 1)) l).

(** The response to a conditional request for a file that has not
    changed. *)
Definition not_modified_response (lib : Library) : response :=
  {| status := 304;
     reason := phrase lib 304;
     fields := (server_fields lib ++ [COEP; COOP])%list;
     body := "" |}.


(* ===================================================================== *)
(** * Strings and paths *)
(* ===================================================================== *)

Lemma append_empty (s : string) : s ++ "" = s.
Proof.
  induction s as [|a s IH]; [reflexivity|].
  unfold String.append; fold String.append. now rewrite IH.
Qed.

Lemma append_assoc (a b c : string) : (a ++ b) ++ c = a ++ b ++ c.
Proof.
  induction a as [|x a IH]; [reflexivity|].
  unfold String.append; fold String.append. now rewrite IH.
Qed.

Lemma chars_append (a b : string) :
  Str.chars (a ++ b) = (Str.chars a ++ Str.chars b)%list.
Proof.
  induction a as [|x a IH]; [reflexivity|].
  unfold String.append; fold String.append. cbn [Str.chars list_ascii_of_string].
  unfold Str.chars in IH. now rewrite IH.
Qed.

Lemma of_chars_app (l k : list ascii) :
  Str.of_chars (l ++ k) = Str.of_chars l ++ Str.of_chars k.
Proof.
  induction l as [|x l IH]; [reflexivity|].
  cbn [app Str.of_chars string_of_list_ascii].
  unfold String.append; fold String.append.
  unfold Str.of_chars in IH. now rewrite IH.
Qed.

Lemma of_chars_chars (s : string) : Str.of_chars (Str.chars s) = s.
Proof. apply string_of_list_ascii_of_string. Qed.

Lemma rfind_bounds c l : -1 <= Str.rfind c l < Z.of_nat (length l).
Proof.
  induction l as [|a l IH]; cbn [Str.rfind length]; [lia|].
  destruct (0 <=? Str.rfind c l) eqn:E; [lia|].
  destruct (Ascii.eqb a c); lia.
Qed.

Lemma rfind_app c l k :
  Str.rfind c (l ++ k) =
  if 0 <=? Str.rfind c k then Z.of_nat (length l) + Str.rfind c k
  else Str.rfind c l.
Proof.
  induction l as [|a l IH]; cbn [app Str.rfind length].
  - pose proof (rfind_bounds c k). destruct (0 <=? Str.rfind c k) eqn:E; lia.
  - rewrite IH. pose proof (rfind_bounds c k).
    destruct (0 <=? Str.rfind c k) eqn:E.
    + assert ((0 <=? Z.of_nat (length l) + Str.rfind c k) = true) as -> by lia. lia.
    + reflexivity.
Qed.

Lemma rfind_absent c l :
  forallb (fun a => negb (Ascii.eqb a c)) l = true -> Str.rfind c l = -1.
Proof.
  induction l as [|a l IH]; cbn [forallb Str.rfind]; [reflexivity|].
  intros [Ha Hl]%andb_prop. rewrite (IH Hl). cbn.
  now destruct (Ascii.eqb a c).
Qed.

(** A name that ends in an ordinary character, a dot and dot-free,
    slash-free letters has these letters as its extension. *)
Lemma splitext_ext (pre : string) (c : ascii) (e : string) :
  c <> "."%char -> c <> "/"%char ->
  forallb (fun a => negb (Ascii.eqb a ".") && negb (Ascii.eqb a "/"))
          (Str.chars e) = true ->
  posixpath.splitext (pre ++ String c (String "." e))
  = (pre ++ String c "", String "." e).
Proof.
  intros Hdot Hsep He.
  assert (forallb (fun a => negb (Ascii.eqb a ".")) (Str.chars e) = true) as Hed.
  { rewrite forallb_forall in *. intros a Ha. now apply He, andb_prop in Ha. }
  assert (forallb (fun a => negb (Ascii.eqb a "/")) (Str.chars e) = true) as Hes.
  { rewrite forallb_forall in *. intros a Ha. now apply He, andb_prop in Ha. }
  apply Ascii.eqb_neq in Hdot, Hsep.
  unfold posixpath.splitext. rewrite chars_append.
  change (Str.chars (String c (String "." e)))
    with (c :: "."%char :: Str.chars e).
  assert (Str.rfind "." (c :: "."%char :: Str.chars e) = 1) as Hd.
  { cbn [Str.rfind]. rewrite (rfind_absent _ _ Hed). reflexivity. }
  assert (Str.rfind "/" (c :: "."%char :: Str.chars e) = -1) as Hs.
  { cbn [Str.rfind]. rewrite (rfind_absent _ _ Hes). cbn. now rewrite Hsep. }
  rewrite !rfind_app, Hd, Hs. cbn [Z.leb Z.compare].
  set (l := Str.chars pre). set (k := Str.chars e).
  pose proof (rfind_bounds "/" l) as Hb.
  set (s := Str.rfind "/" l) in *.
  assert ((s <? Z.of_nat (length l) + 1) = true) as -> by lia.
  unfold Str.slice.
  replace (Z.to_nat (Z.of_nat (length l) + 1)) with (S (length l)) by lia.
  replace (Z.to_nat (Z.of_nat (length l) + 1 - (s + 1)))
    with (S (length l - Z.to_nat (s + 1)))%nat by lia.
  rewrite drop_app_le by lia.
  assert (length (drop (Z.to_nat (s + 1)) l) = (length l - Z.to_nat (s + 1))%nat)
    as Hlen by apply length_drop.
  replace (S (length l - Z.to_nat (s + 1)))
    with (length (drop (Z.to_nat (s + 1)) l) + 1)%nat by lia.
  rewrite take_app_add. cbn [take].
  rewrite existsb_app. cbn [existsb]. rewrite Hdot. cbn [negb orb andb].
  rewrite orb_true_r.
  replace (S (length l)) with (length l + 1)%nat by lia.
  rewrite take_app_add, drop_app_add. cbn [take drop].
  rewrite of_chars_app. unfold l, k. rewrite of_chars_chars.
  cbn [Str.of_chars string_of_list_ascii].
  change (string_of_list_ascii (Str.chars e)) with (Str.of_chars (Str.chars e)).
  now rewrite of_chars_chars.
Qed.

Lemma suffix_loop_exits types db base ext base1 ext1 :
  db = mimetypes.fresh_db types \/
  (exists t x s, db = mimetypes.MimeTypes_add_type t x s (mimetypes.fresh_db types)) ->
  mimetypes.suffix_step db base ext = Some (base1, ext1) ->
  mimetypes.suffix_step db base1 ext1 = None.
Proof.
  intros Hdb. unfold mimetypes.suffix_step.
  assert (mimetypes.suffix_map db = mimetypes._suffix_map_default) as ->.
  { destruct Hdb as [->|(t & x & s & ->)]; reflexivity. }
  destruct (mimetypes._suffix_map_default !! Str.lower ext) as [repl|] eqn:E;
    [|discriminate].
  apply elem_of_list_to_map_2 in E.
  intros [= H].
  assert (exists pre c e, base ++ repl = pre ++ String c (String "." e)
            /\ c <> "."%char /\ c <> "/"%char
            /\ forallb (fun a => negb (Ascii.eqb a ".") && negb (Ascii.eqb a "/"))
                 (Str.chars e) = true
            /\ mimetypes._suffix_map_default !! Str.lower (String "." e) = None)
    as (pre & c & e & Hr & Hc1 & Hc2 & He & Hn).
  { repeat (apply elem_of_cons in E as [E|E];
      [injection E as _ ->|]).
    - exists (base ++ ".sv"), "g"%char, "gz". rewrite append_assoc. repeat split; try discriminate; reflexivity.
    - exists (base ++ ".ta"), "r"%char, "gz". rewrite append_assoc. repeat split; try discriminate; reflexivity.
    - exists (base ++ ".ta"), "r"%char, "gz". rewrite append_assoc. repeat split; try discriminate; reflexivity.
    - exists (base ++ ".ta"), "r"%char, "gz". rewrite append_assoc. repeat split; try discriminate; reflexivity.
    - exists (base ++ ".ta"), "r"%char, "bz2". rewrite append_assoc. repeat split; try discriminate; reflexivity.
    - exists (base ++ ".ta"), "r"%char, "xz". rewrite append_assoc. repeat split; try discriminate; reflexivity.
    - apply elem_of_nil in E. destruct E. }
  rewrite Hr, (splitext_ext _ _ _ Hc1 Hc2 He) in H.
  injection H as <- <-. now rewrite Hn.
Qed.

(* ===================================================================== *)
(** * What a handler buffers and writes *)
(* ===================================================================== *)

Lemma not_http09 v : v <> "HTTP/0.9" -> String.eqb v "HTTP/0.9" = false.
Proof. intros H. apply String.eqb_neq. exact H. Qed.

Section HandlerLemmas.
Variable lib : Library.

Lemma http_log_message s h c b w :
  http h c b w -> http (log_message s h) c b w.
Proof. intros H. exact H. Qed.

Lemma http_set_close x h c b w :
  http h c b w -> http (set_close x h) c b w.
Proof. intros H. exact H. Qed.

Lemma http_write s h c b w :
  http h c b w -> http (write s h) c b (w ++ s).
Proof. intros (Hv & Hc & Hb & Hw). repeat split; auto. simpl. now rewrite Hw. Qed.

Lemma http_send_response_only code msg h c b w :
  http h c b w ->
  http (send_response_only lib code msg h) c
    (b ++ [status_line code (match msg with Some m => m | None => phrase lib code end)]) w.
Proof.
  intros (Hv & Hc & Hb & Hw). unfold send_response_only.
  rewrite (not_http09 _ Hv). repeat split; auto. simpl. rewrite Hb.
  destruct msg; reflexivity.
Qed.

Lemma http_send_header k x h c b w :
  http h c b w ->
  http (send_header k x h) c (b ++ [header_line (k, x)]) w.
Proof.
  intros (Hv & Hc & Hb & Hw). unfold send_header.
  rewrite (not_http09 _ Hv).
  assert (http (set_buffer (_headers_buffer h ++ [k ++ ": " ++ x ++ CRLF]) h) c
            (b ++ [header_line (k, x)]) w) as H.
  { repeat split; auto. simpl. now rewrite Hb. }
  destruct (String.eqb (Str.lower k) "connection"); [|exact H].
  destruct (String.eqb (Str.lower x) "close"); [exact H|].
  destruct (String.eqb (Str.lower x) "keep-alive"); exact H.
Qed.

Lemma http_base_end_headers h c b w :
  http h c b w ->
  http (BaseHTTPRequestHandler_end_headers h) c []
    (w ++ Str.join (b ++ [CRLF])).
Proof.
  intros (Hv & Hc & Hb & Hw). unfold BaseHTTPRequestHandler_end_headers.
  rewrite (not_http09 _ Hv). repeat split; auto. simpl. now rewrite Hb, Hw.
Qed.

Lemma http_eq h c b w b' w' :
  http h c b w -> b = b' -> w = w' -> http h c b' w'.
Proof. intros H -> ->. exact H. Qed.

Lemma http_send_response code msg h c b w :
  http h c b w ->
  http (send_response lib code msg h) c
    (b ++ status_line code (match msg with Some m => m | None => phrase lib code end)
       :: map header_line (server_fields lib)) w.
Proof.
  intros H. unfold send_response, log_request.
  eapply http_eq.
  - apply http_send_header, http_send_header, http_send_response_only,
      http_log_message, H.
  - rewrite <- !app_assoc. reflexivity.
  - reflexivity.
Qed.

Lemma http_dds_end_headers h c b w :
  http h c b w ->
  http (DdsHTTPRequestHandler_end_headers h) c []
    (w ++ Str.join (b ++ map header_line [COEP; COOP] ++ [CRLF])).
Proof.
  intros H. unfold DdsHTTPRequestHandler_end_headers.
  eapply http_eq.
  - apply http_base_end_headers, http_send_header, http_send_header, H.
  - reflexivity.
  - rewrite <- !app_assoc. reflexivity.
Qed.

Lemma http_send_headers hs : forall h c b w,
  http h c b w ->
  http (send_headers hs h) c (b ++ map header_line hs) w.
Proof.
  induction hs as [|[k x] hs IH]; intros h c b w H; simpl.
  - rewrite app_nil_r. exact H.
  - eapply http_eq.
    + apply IH, http_send_header, H.
    + rewrite <- app_assoc. reflexivity.
    + reflexivity.
Qed.

(** A whole header block, as the script's handler sends it. *)
Lemma http_reply code msg hs h c :
  http h c [] "" ->
  http (DdsHTTPRequestHandler_end_headers
          (send_headers hs (send_response lib code msg h))) c []
    (to_bytes {| status := code;
                 reason := match msg with Some m => m | None => phrase lib code end;
                 fields := server_fields lib ++ hs ++ [COEP; COOP];
                 body := "" |}).
Proof.
  intros H. eapply http_eq.
  - apply http_dds_end_headers, http_send_headers, http_send_response, H.
  - reflexivity.
  - unfold to_bytes. cbn [status reason fields body].
    rewrite append_empty. cbn [String.append app].
    rewrite !map_app, <- !app_assoc. reflexivity.
Qed.

Lemma http_body s h c r :
  http h c [] (to_bytes r) ->
  http (write s h) c []
    (to_bytes {| status := status r; reason := reason r;
                 fields := fields r; body := body r ++ s |}).
Proof.
  intros H. eapply http_eq.
  - apply http_write, H.
  - reflexivity.
  - unfold to_bytes. cbn [status reason fields body].
    apply append_assoc.
Qed.

Lemma http_send_error code message explain h c :
  http h c [] "" ->
  http (send_error (cls := DdsHTTPRequestHandler) lib code message explain h)
    c [] (to_bytes (error_response lib c code message explain)).
Proof.
  intros H. unfold send_error, error_response, log_error.
  destruct (match responses lib code with Some sl => sl | None => ("???", "???") end)
    as [shortmsg longmsg].
  cbn [fst snd].
  set (msg := match message with Some m => m | None => shortmsg end).
  set (expl := match explain with Some e => e | None => longmsg end).
  fold (has_page code).
  apply (http_log_message ("code " ++ Str.of_Z code ++ ", message " ++ msg)) in H.
  destruct (has_page code); cbn [andb].
  - pose proof (http_reply code (Some msg)
      [("Connection", "close"); ("Content-Type", error_content_type);
       ("Content-Length", Str.of_Z (Z.of_nat (String.length (error_page lib code msg expl))))]
      _ _ H) as H1.
    cbn [self_end_headers DdsHTTPRequestHandler].
    cbn [send_headers fold_left fst snd] in H1.
    pose proof H1 as (_ & Hc & _).
    rewrite Hc.
    destruct (bool_decide (c = Some "HEAD")); cbn [negb andb].
    + exact H1.
    + destruct (String.eqb (error_page lib code msg expl) "") eqn:E; cbn [negb].
      * apply String.eqb_eq in E. rewrite E in *. exact H1.
      * eapply http_eq.
        -- apply http_write, H1.
        -- reflexivity.
        -- apply (append_assoc _ "" _).
  - pose proof (http_reply code (Some msg) [("Connection", "close")] _ _ H) as H1.
    exact H1.
Qed.

Lemma http_new_request line cmd target v hdrs d :
  v <> "HTTP/0.9" ->
  http (set_request line cmd target v hdrs (new_handler d)) cmd [] "".
Proof. intros Hv. repeat split. exact Hv. Qed.

End HandlerLemmas.

(* ===================================================================== *)
(** * The script, run symbolically *)
(* ===================================================================== *)

Lemma guess_type_inited types path db :
  snd (guess_type types path (Some db)) = Some db.
Proof.
  unfold guess_type. destruct (posixpath.splitext path) as [base ext].
  destruct (extensions_map !! ext); [reflexivity|].
  destruct (extensions_map !! Str.lower ext); [reflexivity|].
  unfold mimetypes.guess_type. cbn [mimetypes.init].
  destruct (mimetypes.MimeTypes_guess_type db path true) as [[g|] enc];
    [destruct (String.eqb g "")|]; reflexivity.
Qed.

Lemma send_file_head_inited cls lib fs types local h db :
  snd (fst (send_file_head (cls := cls) lib fs types local h (Some db))) = Some db.
Proof.
  unfold send_file_head.
  pose proof (guess_type_inited types local db) as G.
  destruct (guess_type types local (Some db)) as [ctype m]. cbn [snd] in G. subst m.
  destruct (Str.endswith local "/"); [reflexivity|].
  destruct (negb (os.valid_name _ local)); [reflexivity|].
  destruct (os.open_rb fs local) as [[content mtime]|]; [|reflexivity].
  destruct (match if_modified_since lib (headers h) with
            | Some _ => _ | None => _ end); [reflexivity|].
  destruct (use_browser_cache lib (headers h) mtime); [reflexivity|].
  destruct (negb (datetime.fromtimestamp_ok mtime)); reflexivity.
Qed.

Lemma send_head_inited cls lib fs types h db :
  snd (fst (send_head (cls := cls) lib fs types h (Some db))) = Some db.
Proof.
  unfold send_head.
  destruct (path_isdir lib fs _); [|apply send_file_head_inited].
  destruct (negb _); [reflexivity|].
  destruct (path_isfile lib fs _); [apply send_file_head_inited|].
  destruct (path_isfile lib fs _); [apply send_file_head_inited|].
  destruct (list_directory _ _ _ _); reflexivity.
Qed.

Lemma handle_inited cls lib fs types rl h db :
  snd (handle_one_request (cls := cls) lib fs types rl h (Some db)) = Some db.
Proof.
  destruct rl; cbn [handle_one_request snd]; try reflexivity.
  destruct (String.eqb cmd "GET").
  - unfold do_GET.
    match goal with |- context [send_head ?a ?b ?c ?d ?e] =>
      pose proof (send_head_inited cls a b c d db) as S;
      destruct (send_head a b c d e) as [[h' m'] [f|]] end;
      cbn [fst snd] in *; exact S.
  - destruct (String.eqb cmd "HEAD"); [|reflexivity].
    unfold do_HEAD.
    match goal with |- context [send_head ?a ?b ?c ?d ?e] =>
      pose proof (send_head_inited cls a b c d db) as S;
      destruct (send_head a b c d e) as [[h' m'] f] end;
      cbn [fst snd] in *; exact S.
Qed.

Lemma set_mime_same p : set_mime (mime p) p = p.
Proof. now destruct p. Qed.

Lemma finish_request_eq env rl p db :
  mime p = Some db ->
  finish_request env DdsHTTPRequestHandler rl p
  = let h := fst (handle_one_request (cls := DdsHTTPRequestHandler)
                    (library env) (files env) (system_types env) rl
                    (new_handler (cwd p)) (Some db)) in
    put_sent (wfile h)
      (put_stderr (log h ++ match raised h with
                            | Some _ => handle_error
                            | None => []
                            end) p).
Proof.
  intros Hm. unfold finish_request. rewrite Hm.
  pose proof (handle_inited DdsHTTPRequestHandler (library env) (files env)
                (system_types env) rl (new_handler (cwd p)) db) as Hi.
  destruct (handle_one_request _ _ _ _ _ _) as [h m]. cbn [fst snd] in *.
  subst m. rewrite <- Hm, set_mime_same. reflexivity.
Qed.

Lemma served_spec env rls : forall p db,
  mime p = Some db ->
  let p' := served env p rls in
  cwd p' = cwd p /\ mime p' = Some db /\ sock p' = sock p
  /\ stdout p' = stdout p /\ calls p' = calls p
  /\ sent p' = (sent p ++
       map (fun rl => wfile (fst (handle_one_request (cls := DdsHTTPRequestHandler)
                                    (library env) (files env) (system_types env) rl
                                    (new_handler (cwd p)) (Some db)))) rls)%list.
Proof.
  induction rls as [|rl rls IH]; intros p db Hm; cbn [served fold_left map].
  - cbv zeta. rewrite app_nil_r. repeat split; try reflexivity. exact Hm.
  - fold (served env (finish_request env DdsHTTPRequestHandler rl p) rls).
    rewrite (finish_request_eq env rl p db Hm). cbv zeta.
    match goal with |- context [served env ?q rls] =>
      destruct (IH q db Hm) as (H1 & H2 & H3 & H4 & H5 & H6) end.
    cbn [cwd mime sock stdout calls sent put_sent put_stderr] in *.
    cbv zeta. rewrite H1, H2, H3, H4, H5, H6, <- app_assoc.
    repeat split; reflexivity.
Qed.

Lemma serve_forever_eq env evs : forall p,
  serve_forever env DdsHTTPRequestHandler evs p
  = (served env p (connections evs),
     match stops evs with Some e => Raise e | None => Serving end).
Proof.
  induction evs as [|[rl|e] evs IH]; intros p; cbn [serve_forever connections stops served fold_left];
    try reflexivity.
  apply IH.
Qed.

Lemma interruptible_none env {A} pt (m : M A) :
  sigint env = None -> interruptible env pt m = m.
Proof. intros H. unfold interruptible. now rewrite H. Qed.

Lemma run_starts env :
  starts env = true ->
  run env = ends (served env (ready env) (connections (events env)))
                 (stops (events env)).
Proof.
  unfold starts.
  intros [[[Hs%bool_decide_eq_true Hb%bool_decide_eq_true]%andb_prop
             Hf]%andb_prop Hc]%andb_prop.
  apply negb_true_iff in Hf.
  unfold run, module_init, main, os_path_exists, os_chdir, TCPServer,
    server_bind, print.
  rewrite !(interruptible_none env _ _ Hs).
  unfold bind, with_, try_reraise, try_except, ret, server_activate, server_close.
  unfold ready, root, os.isdir, os.exists_. unfold os.isfile in Hf.
  unfold os.isdir in Hc.
  rewrite Hb. cbn -[serve_forever posixpath.join].
  change (posixpath.join (launch_dir env) "dist") with (dist_path env).
  destruct (files env (dist_path env)) as [[l|c t r]|] eqn:E;
    try discriminate; cbn -[serve_forever posixpath.join];
    change (posixpath.join (launch_dir env) "dist") with (dist_path env);
    rewrite ?E;
    try (cbn in Hc; apply bool_decide_eq_true in Hc; rewrite Hc);
    cbn -[serve_forever posixpath.join];
    rewrite serve_forever_eq;
    (destruct (stops (events env)) as [[]|]; reflexivity).
Qed.

Lemma interruptible_at env {A} pt (m : M A) :
  sigint env = Some pt ->
  interruptible env pt m = fun p => (p, Raise KeyboardInterrupt).
Proof.
  intros H. unfold interruptible. rewrite H.
  now rewrite bool_decide_eq_true_2.
Qed.

Lemma interruptible_not env {A} pt (m : M A) :
  sigint env <> Some pt -> interruptible env pt m = m.
Proof.
  intros H. unfold interruptible. now rewrite bool_decide_eq_false_2.
Qed.

(** Symbolic execution of the start-up code on the four things it depends
    on: the interrupt, the results of [bind] and [chdir], and what [dist]
    is. *)
Ltac step_script env :=
  cbn -[serve_forever posixpath.join];
  change (posixpath.join (launch_dir env) "dist") with (dist_path env).

Ltac run_cases env :=
  unfold run, module_init, main, os_path_exists, os_chdir, TCPServer,
    server_bind, print;
  destruct (sigint env) as [[]|] eqn:Esig;
  repeat match goal with
    | |- context [interruptible env ?pt ?m] =>
        first [ rewrite (interruptible_at env pt m) by exact Esig
              | rewrite (interruptible_not env pt m)
                  by (rewrite Esig; discriminate) ]
    end;
  unfold bind, with_, try_reraise, try_except, ret, server_activate,
    server_close, os.exists_;
  destruct (bind_errno env) as [?|] eqn:Ebind;
  destruct (chdir_errno env) as [?|] eqn:Echdir;
  step_script env;
  destruct (files env (dist_path env)) as [[?|? ? ?]|] eqn:Efiles;
  step_script env; rewrite ?Efiles; step_script env.

Lemma starts_false_cases env :
  starts env = false ->
  sigint env <> None \/ bind_errno env <> None
  \/ os.isfile (files env) (dist_path env) = true
  \/ (os.isdir (files env) (dist_path env) = true /\ chdir_errno env <> None).
Proof.
  unfold starts. intros H.
  destruct (decide (sigint env = None)) as [E1|E1]; [|now left].
  destruct (decide (bind_errno env = None)) as [E2|E2]; [|now right; left].
  rewrite (bool_decide_eq_true_2 _ E1), (bool_decide_eq_true_2 _ E2) in H.
  cbn [andb] in H.
  destruct (os.isfile (files env) (dist_path env));
    [right; right; left; reflexivity|].
  cbn [negb andb] in H.
  destruct (os.isdir (files env) (dist_path env)); cbn [negb orb] in H;
    [|discriminate].
  right; right; right. split; [reflexivity|].
  intros E3. now rewrite (bool_decide_eq_true_2 _ E3) in H.
Qed.

(** The runs that do not reach [serve_forever], case by case. *)
Ltac stillborn_cases env Hs :=
  apply starts_false_cases in Hs; unfold os.isfile, os.isdir in Hs;
  run_cases env;
  try (exfalso;
       try match goal with
           | E : files env (dist_path env) = _ |- _ => rewrite E in Hs
           end;
       destruct Hs as [Hs|[Hs|[Hs|[Hs Hs']]]]; congruence).

(** When start-up does not reach [serve_forever], the script ends at once,
    with an error status, whatever the events. *)
Lemma run_stillborn env :
  starts env = false ->
  sent (fst (run env)) = []
  /\ ~ In stopped_line (stdout (fst (run env)))
  /\ (sock (fst (run env)) = NoSocket \/ sock (fst (run env)) = Closed)
  /\ (snd (run env) = Some 1 \/ snd (run env) = Some 130)
  /\ (count_binds (calls (fst (run env))) <= 1)%nat.
Proof.
  intros Hs.
  stillborn_cases env Hs;
    repeat split;
    lazymatch goal with
    | |- sent _ = [] => reflexivity
    | |- ~ _ =>
        cbn; intros Hin;
        repeat (destruct Hin as [Hin|Hin]; [vm_compute in Hin; discriminate|]);
        exact Hin
    | |- _ \/ _ => first [left; reflexivity | right; reflexivity]
    | |- (_ <= _)%nat => cbn; lia
    end.
Qed.

(* ===================================================================== *)
(** * What the server answers *)
(* ===================================================================== *)

Lemma sent_run env :
  starts env = true ->
  sent (fst (run env)) = map (answer env (root env)) (connections (events env)).
Proof.
  intros Hs. rewrite (run_starts env Hs).
  destruct (served_spec env (connections (events env)) (ready env) (registry env) eq_refl)
    as (_ & _ & _ & _ & _ & H).
  cbn [ready sent cwd app] in H.
  destruct (stops (events env)) as [[]|]; exact H.
Qed.

Lemma answered env i rl :
  starts env = true ->
  connections (events env) !! i = Some rl ->
  sent (fst (run env)) !! i = Some (answer env (root env) rl).
Proof.
  intros Hs Hi. rewrite (sent_run env Hs), list_lookup_fmap, Hi. reflexivity.
Qed.

Lemma isdir_regular fs local content mtime r :
  fs local = Some (os.RegularFile content mtime r) -> os.isdir fs local = false.
Proof. unfold os.isdir. now intros ->. Qed.

Lemma path_isdir_false lib fs local :
  os.isdir fs local = false -> path_isdir lib fs local = false.
Proof. unfold path_isdir. intros ->. apply andb_false_r. Qed.

(** The answer to GET or HEAD for a readable regular file: the file, or
    304 when the browser's copy is as new. *)
Lemma answer_file env dir line cmd target version hdrs content mtime :
  cmd = "GET" \/ cmd = "HEAD" ->
  version <> "HTTP/0.9" ->
  let local := translate_path (library env) dir target in
  files env local = Some (os.RegularFile content mtime true) ->
  Str.endswith local "/" = false ->
  os.valid_name (fsencodable (library env)) local = true ->
  datetime.fromtimestamp_ok mtime = true ->
  answer env dir (Parsed line cmd target version hdrs)
  = to_bytes (if use_browser_cache (library env) hdrs mtime
              then not_modified_response (library env)
              else file_response (library env)
                     (fst (guess_type (system_types env) local
                             (Some (registry env))))
                     content mtime (String.eqb cmd "GET")).
Proof.
  intros Hcmd Hv local Hf He Hn Ht.
  pose proof (http_new_request line (Some cmd) target version hdrs dir Hv) as H.
  assert (forall h' , http h' (Some cmd) [] "" ->
            headers h' = hdrs ->
            let r := send_file_head (cls := DdsHTTPRequestHandler)
                       (library env) (files env) (system_types env) local h'
                       (Some (registry env)) in
            if use_browser_cache (library env) hdrs mtime
            then snd r = None /\
                 http (fst (fst r)) (Some cmd) []
                   (to_bytes (not_modified_response (library env)))
            else snd r = Some content /\
                 http (fst (fst r)) (Some cmd) []
                   (to_bytes (file_response (library env)
                      (fst (guess_type (system_types env) local
                              (Some (registry env))))
                      content mtime false))) as Hsf.
  { intros h' H' Hh. unfold send_file_head.
    destruct (guess_type _ local _) as [ctype m']. rewrite He, Hn.
    unfold os.open_rb. rewrite Hf, Hh, Ht. cbn [negb fst snd].
    assert (match if_modified_since (library env) hdrs with
            | Some _ => false | None => false end = false) as ->
      by now destruct (if_modified_since (library env) hdrs).
    destruct (use_browser_cache (library env) hdrs mtime); cbn [fst snd];
      (split; [reflexivity|]).
    - apply (http_reply (library env) 304 None [] _ _ H').
    - apply (http_reply (library env) 200 None
               [("Content-type", ctype);
                ("Content-Length", Str.of_Z (Z.of_nat (String.length content)));
                ("Last-Modified", date_time_string (library env) (Some mtime))]
               _ _ H'). }
  unfold answer. cbn [handle_one_request].
  specialize (Hsf _ H eq_refl). cbv zeta in Hsf.
  destruct Hcmd as [-> | ->]; cbn [String.eqb Ascii.eqb Bool.eqb];
    [unfold do_GET | unfold do_HEAD]; unfold send_head;
    cbn [directory path set_request new_handler]; fold local;
    rewrite (path_isdir_false _ _ _ (isdir_regular _ _ _ _ _ Hf));
    destruct (send_file_head _ _ _ _ _ _) as [[h' m'] f];
    cbn [fst snd] in *;
    destruct (use_browser_cache (library env) hdrs mtime);
    destruct Hsf as (-> & Hh).
  - destruct Hh as (_ & _ & _ & Hw). exact Hw.
  - apply (http_body content) in Hh. destruct Hh as (_ & _ & _ & Hw).
    exact Hw.
  - destruct Hh as (_ & _ & _ & Hw). exact Hw.
  - destruct Hh as (_ & _ & _ & Hw). exact Hw.
Qed.

(** The answer to GET or HEAD for a name that is no directory and cannot
    be opened. *)
Lemma answer_missing env dir line cmd target version hdrs :
  cmd = "GET" \/ cmd = "HEAD" ->
  version <> "HTTP/0.9" ->
  let local := translate_path (library env) dir target in
  os.valid_name (fsencodable (library env)) local = true ->
  os.isdir (files env) local = false ->
  os.open_rb (files env) local = None ->
  answer env dir (Parsed line cmd target version hdrs)
  = to_bytes (error_response (library env) (Some cmd) 404
                (Some "File not found") None).
Proof.
  intros Hcmd Hv local Hn Hd Ho.
  pose proof (http_new_request line (Some cmd) target version hdrs dir Hv) as H.
  assert (forall h', http h' (Some cmd) [] "" ->
            let r := send_file_head (cls := DdsHTTPRequestHandler)
                       (library env) (files env) (system_types env) local h'
                       (Some (registry env)) in
            snd r = None /\
            http (fst (fst r)) (Some cmd) []
              (to_bytes (error_response (library env) (Some cmd) 404
                           (Some "File not found") None))) as Hsf.
  { intros h' H'. unfold send_file_head.
    destruct (guess_type _ local _) as [ctype m']. rewrite Ho, Hn.
    destruct (Str.endswith local "/"); cbn [negb fst snd];
      (split; [reflexivity|apply http_send_error, H']). }
  unfold answer. cbn [handle_one_request].
  specialize (Hsf _ H). cbv zeta in Hsf.
  destruct Hcmd as [-> | ->]; cbn [String.eqb Ascii.eqb Bool.eqb];
    [unfold do_GET | unfold do_HEAD]; unfold send_head;
    cbn [directory path set_request new_handler]; fold local;
    rewrite (path_isdir_false _ _ _ Hd);
    destruct (send_file_head _ _ _ _ _ _) as [[h' m'] f];
    cbn [fst snd] in *; destruct Hsf as (-> & Hh);
    destruct Hh as (_ & _ & _ & Hw); exact Hw.
Qed.

(* ===================================================================== *)
(** * One request per connection *)
(* ===================================================================== *)

Section OneRequestPerConnection.
Variable lib : Library.
Variable fs : os.filesystem.
Variable types : gmap string string * gmap string string.

Lemma closing_send_response_only code msg h :
  closing h -> closing (send_response_only lib code msg h).
Proof.
  intros Hc. unfold send_response_only.
  destruct (String.eqb _ "HTTP/0.9"); exact Hc.
Qed.


Lemma closing_send_header k x h :
  String.eqb (Str.lower k) "connection"
  && String.eqb (Str.lower x) "keep-alive" = false ->
  closing h -> closing (send_header k x h).
Proof.
  unfold closing. intros Hk Hc. unfold send_header.
  destruct (String.eqb (Str.lower k) "connection");
    [cbn [andb] in Hk; rewrite Hk; destruct (String.eqb (Str.lower x) "close")|];
    destruct (String.eqb (request_version h) "HTTP/0.9"); auto.
Qed.

Ltac closing_chain Hc :=
  repeat first [ apply closing_send_header; [reflexivity|]
               | apply closing_send_response_only ];
  exact Hc.

Lemma closing_send_response code msg h :
  closing h -> closing (send_response lib code msg h).
Proof.
  intros Hc. unfold send_response. closing_chain Hc.
Qed.

Lemma closing_end_headers h :
  closing h -> closing (DdsHTTPRequestHandler_end_headers h).
Proof.
  intros Hc. unfold DdsHTTPRequestHandler_end_headers.
  assert (forall h', closing h' -> closing (BaseHTTPRequestHandler_end_headers h'))
    as Hb.
  { intros h' H'. unfold BaseHTTPRequestHandler_end_headers.
    destruct (String.eqb _ "HTTP/0.9"); exact H'. }
  apply Hb. closing_chain Hc.
Qed.

Lemma closing_send_error code message explain h :
  closing h ->
  closing (send_error (cls := DdsHTTPRequestHandler) lib code message explain h).
Proof.
  intros Hc. unfold send_error.
  destruct (match responses lib code with Some sl => sl | None => ("???", "???") end)
    as [shortmsg longmsg].
  cbn [self_end_headers DdsHTTPRequestHandler].
  destruct ((200 <=? code) && negb ((code =? 204) || (code =? 205) || (code =? 304)));
    [destruct (negb _ && negb _)|];
    unfold closing; cbn [write close_connection];
    apply closing_end_headers; unfold send_response; closing_chain Hc.
Qed.

Lemma closing_send_head h m :
  closing h ->
  closing (fst (fst (send_head (cls := DdsHTTPRequestHandler) lib fs types h m))).
Proof.
  intros Hc.
  assert (forall local, closing (fst (fst (send_file_head
            (cls := DdsHTTPRequestHandler) lib fs types local h m)))) as Hf.
  { intros local. unfold send_file_head.
    destruct (guess_type types local m) as [ctype m'].
    destruct (Str.endswith local "/"); [now apply closing_send_error|].
    destruct (negb (os.valid_name _ local)); [exact Hc|].
    destruct (os.open_rb fs local) as [[content mtime]|];
      [|now apply closing_send_error].
    destruct (match if_modified_since lib (headers h) with
              | Some _ => _ | None => _ end); [exact Hc|].
    destruct (use_browser_cache lib (headers h) mtime); cbn [fst];
      [|destruct (negb (datetime.fromtimestamp_ok mtime)); cbn [fst]];
      cbn [self_end_headers DdsHTTPRequestHandler];
      try apply closing_end_headers;
      try (unfold closing; cbn [raise_ close_connection];
           fold (closing (send_header "Content-Length"
                            (Str.of_Z (Z.of_nat (String.length content)))
                            (send_header "Content-type" ctype
                               (send_response lib 200 None h)))));
      unfold send_response; closing_chain Hc. }
  unfold send_head.
  destruct (path_isdir lib fs _); [|apply Hf].
  destruct (negb _).
  { cbn [fst self_end_headers DdsHTTPRequestHandler].
    apply closing_end_headers; unfold send_response; closing_chain Hc. }
  destruct (path_isfile lib fs _); [apply Hf|].
  destruct (path_isfile lib fs _); [apply Hf|].
  unfold list_directory. destruct (negb _); cbn [fst].
  - now apply closing_send_error.
  - cbn [self_end_headers DdsHTTPRequestHandler].
    apply closing_end_headers; unfold send_response; closing_chain Hc.
Qed.

(** Whatever the request, the handler of the script leaves
    [close_connection] set: [handle] runs [handle_one_request] once. *)
Lemma handle_closes rl d m :
  closing (fst (handle_one_request (cls := DdsHTTPRequestHandler)
                  lib fs types rl (new_handler d) m)).
Proof.
  destruct rl; cbn [handle_one_request fst]; try reflexivity;
    try (now apply closing_send_error).
  destruct (String.eqb cmd "GET"); [|destruct (String.eqb cmd "HEAD")].
  - unfold do_GET.
    match goal with |- context [send_head ?a ?b ?c ?h ?mm] =>
      pose proof (closing_send_head h mm eq_refl) as H;
      destruct (send_head a b c h mm) as [[h' m'] [f|]] end; exact H.
  - unfold do_HEAD.
    match goal with |- context [send_head ?a ?b ?c ?h ?mm] =>
      pose proof (closing_send_head h mm eq_refl) as H;
      destruct (send_head a b c h mm) as [[h' m'] f] end; exact H.
  - now apply closing_send_error.
Qed.
End OneRequestPerConnection.

(* ===================================================================== *)
(** * More on runs, events and names *)
(* ===================================================================== *)

(** The process a successful start-up ends in, field by field. *)
Lemma run_starts_state env :
  starts env = true ->
  let p := fst (run env) in
  let stopped := match stops (events env) with Some _ => true | None => false end in
  cwd p = root env
  /\ mime p = Some (registry env)
  /\ sock p = (if stopped then Closed else Listening)
  /\ calls p = (calls (ready env) ++ (if stopped then [SysClose] else []))%list
  /\ stdout p = ([serving_line; note_line]
                 ++ match stops (events env) with
                    | Some KeyboardInterrupt => [stopped_line]
                    | _ => []
                    end)%list
  /\ snd (run env) = match stops (events env) with
                     | None => None
                     | Some KeyboardInterrupt => Some 0
                     | Some _ => Some 1
                     end.
Proof.
  intros Hs. rewrite (run_starts env Hs).
  destruct (served_spec env (connections (events env)) (ready env)
              (registry env) eq_refl) as (H1 & H2 & H3 & H4 & H5 & _).
  destruct (stops (events env)) as [[]|]; cbn [ends fst snd];
    cbn [cwd mime sock calls stdout set_sock put_call put_stdout put_stderr];
    rewrite ?H1, ?H2, ?H3, ?H4, ?H5, ?app_nil_r; repeat split; reflexivity.
Qed.

Lemma starts_true_cases env :
  starts env = true ->
  sigint env = None /\ bind_errno env = None
  /\ os.isfile (files env) (dist_path env) = false
  /\ (os.isdir (files env) (dist_path env) = true -> chdir_errno env = None).
Proof.
  unfold starts.
  intros [[[H1%bool_decide_eq_true H2%bool_decide_eq_true]%andb_prop
             H3%negb_true_iff]%andb_prop H4]%andb_prop.
  repeat split; auto.
  intros Hd. rewrite Hd in H4. now apply bool_decide_eq_true in H4.
Qed.

Lemma connections_until_exception rls e later :
  connections (map Connection rls ++ Exception e :: later) = rls
  /\ stops (map Connection rls ++ Exception e :: later) = Some e.
Proof.
  induction rls as [|rl rls [IH1 IH2]]; cbn [map app connections stops].
  - split; reflexivity.
  - rewrite IH1, IH2. split; reflexivity.
Qed.

Lemma length_append (a b : string) :
  String.length (a ++ b) = (String.length a + String.length b)%nat.
Proof.
  induction a as [|x a IH]; [reflexivity|].
  unfold String.append; fold String.append. cbn [String.length]. now rewrite IH.
Qed.

Lemma substring_append (a b : string) n m :
  substring (String.length a + n) m (a ++ b) = substring n m b.
Proof.
  induction a as [|x a IH]; [reflexivity|].
  unfold String.append; fold String.append. cbn [String.length Nat.add substring].
  exact IH.
Qed.

Lemma to_bytes_starts_with_version r :
  exists rest, to_bytes r = String "H" rest.
Proof.
  unfold to_bytes, Str.join, status_line, protocol_version.
  cbn [fold_right]. eexists.
  unfold String.append at 1 2 3; fold String.append. reflexivity.
Qed.

Lemma to_bytes_not_empty r : to_bytes r <> "".
Proof.
  destruct (to_bytes_starts_with_version r) as [rest ->]. discriminate.
Qed.

(* ===================================================================== *)
(** * Names that end in [.dds] *)
(* ===================================================================== *)

(** [splitext] on a name that ends in a dot and dot-free, slash-free
    letters: the letters are the extension when the last component has a
    character other than a dot before them, and there is no extension
    otherwise. *)
Lemma splitext_suffix (pre e : string) :
  forallb (fun a => negb (Ascii.eqb a ".") && negb (Ascii.eqb a "/"))
          (Str.chars e) = true ->
  posixpath.splitext (pre ++ String "." e)
  = if has_stem pre then (pre, String "." e) else (pre ++ String "." e, "").
Proof.
  intros He.
  assert (forallb (fun a => negb (Ascii.eqb a ".")) (Str.chars e) = true) as Hed.
  { rewrite forallb_forall in *. intros a Ha. now apply He, andb_prop in Ha. }
  assert (forallb (fun a => negb (Ascii.eqb a "/")) (Str.chars e) = true) as Hes.
  { rewrite forallb_forall in *. intros a Ha. now apply He, andb_prop in Ha. }
  unfold posixpath.splitext, has_stem. rewrite chars_append.
  change (Str.chars (String "." e)) with ("."%char :: Str.chars e).
  assert (Str.rfind "." ("."%char :: Str.chars e) = 0) as Hd.
  { cbn [Str.rfind]. rewrite (rfind_absent _ _ Hed). reflexivity. }
  assert (Str.rfind "/" ("."%char :: Str.chars e) = -1) as Hs.
  { cbn [Str.rfind]. rewrite (rfind_absent _ _ Hes). reflexivity. }
  rewrite !rfind_app, Hd, Hs. cbn [Z.leb Z.compare].
  set (l := Str.chars pre). set (k := Str.chars e).
  pose proof (rfind_bounds "/" l) as Hb.
  set (s := Str.rfind "/" l) in *.
  assert ((s <? Z.of_nat (length l) + 0) = true) as -> by lia.
  unfold Str.slice. cbn [andb].
  replace (Z.to_nat (Z.of_nat (length l) + 0)) with (length l) by lia.
  replace (Z.to_nat (Z.of_nat (length l) + 0 - (s + 1)))
    with (length l - Z.to_nat (s + 1))%nat by lia.
  rewrite drop_app_le by lia.
  assert (length (drop (Z.to_nat (s + 1)) l) = (length l - Z.to_nat (s + 1))%nat)
    as Hlen by apply length_drop.
  rewrite <- Hlen, take_app_length.
  destruct (existsb _ _); [|reflexivity].
  rewrite take_app_length, drop_app_length.
  unfold l, k. rewrite of_chars_chars.
  cbn [Str.of_chars string_of_list_ascii].
  change (string_of_list_ascii (Str.chars e)) with (Str.of_chars (Str.chars e)).
  now rewrite of_chars_chars.
Qed.

Lemma lower_char_d a : Str.lower_char a = "d"%char -> a = "d"%char \/ a = "D"%char.
Proof.
  destruct a as [[] [] [] [] [] [] [] []]; intros H; vm_compute in H;
    try discriminate H; auto.
Qed.

Lemma lower_char_s a : Str.lower_char a = "s"%char -> a = "s"%char \/ a = "S"%char.
Proof.
  destruct a as [[] [] [] [] [] [] [] []]; intros H; vm_compute in H;
    try discriminate H; auto.
Qed.

Lemma lower_dds e :
  Str.lower e = "dds" ->
  In e ["dds"; "ddS"; "dDs"; "dDS"; "Dds"; "DdS"; "DDs"; "DDS"].
Proof.
  destruct e as [|a [|b [|c [|x e]]]]; cbn [Str.lower]; try discriminate.
  intros [= Ha%lower_char_d Hb%lower_char_d Hc%lower_char_s].
  destruct Ha as [-> | ->], Hb as [-> | ->], Hc as [-> | ->]; cbn; auto 10.
Qed.

Ltac dds_cases He :=
  apply lower_dds in He; cbn [In] in He; decompose [or] He;
  try contradiction; subst.

(** The type of a name that ends in [.dds], in whatever case: the
    registered one when the letters are the extension, and the type of
    last resort, which is the same, when the name has no extension. *)
Lemma guess_type_dds_name types (pre e : string) :
  Str.lower e = "dds" ->
  has_stem pre = true \/ snd types !! "" = None ->
  let db := mimetypes.MimeTypes_add_type "application/octet-stream" ".dds" true
              (mimetypes.fresh_db types) in
  guess_type types (pre ++ String "." e) (Some db)
  = ("application/octet-stream", Some db).
Proof.
  intros He Hst db.
  assert (posixpath.splitext (pre ++ String "." e)
          = if has_stem pre then (pre, String "." e)
            else (pre ++ String "." e, "")) as Hs.
  { apply splitext_suffix. dds_cases He; reflexivity. }
  unfold guess_type. rewrite Hs.
  unfold mimetypes.guess_type, mimetypes.MimeTypes_guess_type.
  cbn [mimetypes.init]. rewrite Hs.
  unfold mimetypes.suffix_loop, mimetypes.suffix_step.
  change (mimetypes.suffix_map db) with mimetypes._suffix_map_default.
  change (mimetypes.encodings_map db) with mimetypes._encodings_map_default.
  change (snd (mimetypes.types_map db))
    with (<[".dds" := "application/octet-stream"]> (snd types)).
  destruct (has_stem pre).
  - dds_cases He;
      match goal with
      | |- context [extensions_map !! ?x] =>
          change (extensions_map !! x) with (@None string);
          change (extensions_map !! Str.lower x) with (@None string);
          change (mimetypes._suffix_map_default !! Str.lower x) with (@None string);
          cbv beta iota zeta;
          change (mimetypes._encodings_map_default !! x) with (@None string);
          cbv beta iota zeta;
          change (Str.lower x) with ".dds"
      end;
      rewrite lookup_insert_eq; reflexivity.
  - destruct Hst as [Hst|Hst]; [discriminate|].
    change (extensions_map !! "") with (@None string).
    change (extensions_map !! Str.lower "") with (@None string).
    change (mimetypes._suffix_map_default !! Str.lower "") with (@None string).
    cbv beta iota zeta.
    change (mimetypes._encodings_map_default !! "") with (@None string).
    cbv beta iota zeta.
    change (Str.lower "") with "".
    rewrite lookup_insert_ne by discriminate. rewrite Hst. reflexivity.
Qed.

Lemma dds_name_is_no_directory_name (pre e : string) :
  Str.lower e = "dds" ->
  Str.endswith (pre ++ String "." e) "/" = false.
Proof.
  intros He. unfold Str.endswith. rewrite length_append.
  dds_cases He; cbn [String.length];
    replace (String.length pre + 4 - 1)%nat with (String.length pre + 3)%nat by lia;
    rewrite substring_append; cbn [substring];
    now rewrite andb_false_r.
Qed.

(* ===================================================================== *)
(** * Exceptions inside the handler *)
(* ===================================================================== *)

Section Raised.
Variable lib : Library.

Lemma raised_send_header k x h : raised (send_header k x h) = raised h.
Proof.
  unfold send_header.
  destruct (String.eqb (Str.lower k) "connection");
    [destruct (String.eqb (Str.lower x) "close");
       [|destruct (String.eqb (Str.lower x) "keep-alive")]|];
    destruct (String.eqb (request_version h) "HTTP/0.9"); reflexivity.
Qed.

Lemma raised_send_response code msg h :
  raised (send_response lib code msg h) = raised h.
Proof.
  unfold send_response. rewrite !raised_send_header.
  unfold send_response_only, log_request.
  cbn [log_message request_version].
  destruct (String.eqb (request_version h) "HTTP/0.9"); reflexivity.
Qed.

Lemma raised_end_headers h :
  raised (DdsHTTPRequestHandler_end_headers h) = raised h.
Proof.
  unfold DdsHTTPRequestHandler_end_headers, BaseHTTPRequestHandler_end_headers.
  destruct (String.eqb _ "HTTP/0.9"); cbn [flush_headers set_buffer write raised];
    now rewrite !raised_send_header.
Qed.

Lemma raised_send_error code message explain h :
  raised (send_error (cls := DdsHTTPRequestHandler) lib code message explain h)
  = raised h.
Proof.
  unfold send_error, log_error.
  destruct (match responses lib code with Some sl => sl | None => ("???", "???") end)
    as [shortmsg longmsg].
  cbn [self_end_headers DdsHTTPRequestHandler].
  destruct ((200 <=? code) && negb ((code =? 204) || (code =? 205) || (code =? 304)));
    [destruct (negb _ && negb _)|];
    cbn [write raised];
    rewrite raised_end_headers, ?raised_send_header, raised_send_response;
    reflexivity.
Qed.

End Raised.

(** Handling a request for a name that is no directory and cannot be
    opened raises nothing. *)
Lemma missing_raises_nothing env dir line cmd target version hdrs :
  cmd = "GET" \/ cmd = "HEAD" ->
  let local := translate_path (library env) dir target in
  os.valid_name (fsencodable (library env)) local = true ->
  os.isdir (files env) local = false ->
  os.open_rb (files env) local = None ->
  exception_of env dir (Parsed line cmd target version hdrs) = None.
Proof.
  intros Hcmd local Hn Hd Ho. unfold exception_of.
  assert (forall h', raised h' = None ->
            let r := send_file_head (cls := DdsHTTPRequestHandler)
                       (library env) (files env) (system_types env) local h'
                       (Some (registry env)) in
            snd r = None /\ raised (fst (fst r)) = None) as Hsf.
  { intros h' H'. unfold send_file_head.
    destruct (guess_type _ local _) as [ctype m']. rewrite Ho, Hn.
    destruct (Str.endswith local "/"); cbn [negb fst snd];
      (split; [reflexivity|now rewrite raised_send_error]). }
  cbn [handle_one_request].
  match goal with
  | |- context [set_request ?a ?b ?c ?d ?e ?f] =>
      specialize (Hsf (set_request a b c d e f) eq_refl)
  end.
  cbv zeta in Hsf.
  destruct Hcmd as [-> | ->]; cbn [String.eqb Ascii.eqb Bool.eqb];
    [unfold do_GET | unfold do_HEAD]; unfold send_head;
    cbn [directory path set_request new_handler]; fold local;
    rewrite (path_isdir_false _ _ _ Hd);
    cbn [directory path set_request new_handler] in Hsf;
    destruct (send_file_head _ _ _ _ _ _) as [[h' m'] f];
    cbn [fst snd] in *; destruct Hsf as (-> & Hh); exact Hh.
Qed.

(* ===================================================================== *)
(** * The handler of the script and its base class *)
(* ===================================================================== *)

Section Refinement.
Variable lib : Library.
Variable fs : os.filesystem.
Variable types : gmap string string * gmap string string.

(** A whole header block, as a handler of the base class sends it. *)
Lemma http_base_reply code msg hs h c :
  http h c [] "" ->
  http (BaseHTTPRequestHandler_end_headers
          (send_headers hs (send_response lib code msg h))) c []
    (to_bytes {| status := code;
                 reason := match msg with Some m => m | None => phrase lib code end;
                 fields := server_fields lib ++ hs;
                 body := "" |}).
Proof.
  intros H. eapply http_eq.
  - apply http_base_end_headers, http_send_headers, http_send_response, H.
  - reflexivity.
  - unfold to_bytes. cbn [status reason fields body].
    rewrite append_empty. cbn [String.append app].
    rewrite !map_app, <- !app_assoc. reflexivity.
Qed.

Lemma paired_reply code msg hs h c :
  http h c [] "" -> plain hs = true ->
  paired (BaseHTTPRequestHandler_end_headers
            (send_headers hs (send_response lib code msg h)))
         (DdsHTTPRequestHandler_end_headers
            (send_headers hs (send_response lib code msg h))) c.
Proof.
  intros H Hp. eexists. split; [apply http_base_reply, H|]. split.
  - eapply http_eq; [apply http_reply, H|reflexivity|].
    unfold isolate. cbn [status reason fields body].
    now rewrite <- app_assoc.
  - cbn [fields]. unfold plain in *. rewrite forallb_app, Hp. reflexivity.
Qed.

Lemma paired_write s g h c : paired g h c -> paired (write s g) (write s h) c.
Proof.
  intros (r & Hg & Hh & Hp).
  exists {| status := status r; reason := reason r; fields := fields r;
            body := body r ++ s |}.
  split; [apply http_body, Hg|]. split; [|exact Hp].
  apply (http_body s _ _ (isolate r)), Hh.
Qed.

Lemma paired_send_error code message explain h c :
  http h c [] "" ->
  paired (send_error (cls := SimpleHTTPRequestHandler) lib code message explain h)
         (send_error (cls := DdsHTTPRequestHandler) lib code message explain h) c.
Proof.
  intros H. unfold send_error, log_error.
  destruct (match responses lib code with Some sl => sl | None => ("???", "???") end)
    as [shortmsg longmsg].
  set (msg := match message with Some m => m | None => shortmsg end).
  set (expl := match explain with Some e => e | None => longmsg end).
  apply (http_log_message ("code " ++ Str.of_Z code ++ ", message " ++ msg)) in H.
  cbn [self_end_headers DdsHTTPRequestHandler SimpleHTTPRequestHandler].
  destruct ((200 <=? code) && negb ((code =? 204) || (code =? 205) || (code =? 304))).
  - pose proof (paired_reply code (Some msg)
      [("Connection", "close"); ("Content-Type", error_content_type);
       ("Content-Length", Str.of_Z (Z.of_nat (String.length (error_page lib code msg expl))))]
      _ _ H eq_refl) as P.
    cbn [send_headers fold_left fst snd] in P.
    pose proof P as (r & (_ & Hc1 & _) & (_ & Hc2 & _) & _).
    rewrite Hc1, Hc2.
    destruct (negb (bool_decide (c = Some "HEAD"))
              && negb (String.eqb (error_page lib code msg expl) "")).
    + apply paired_write, P.
    + exact P.
  - exact (paired_reply code (Some msg) [("Connection", "close")] _ _ H eq_refl).
Qed.

Lemma paired_send_file_head local h m c :
  http h c [] "" ->
  let b := send_file_head (cls := SimpleHTTPRequestHandler) lib fs types local h m in
  let d := send_file_head (cls := DdsHTTPRequestHandler) lib fs types local h m in
  (paired (fst (fst b)) (fst (fst d)) c /\ snd b = snd d)
  \/ (wfile (fst (fst b)) = "" /\ wfile (fst (fst d)) = ""
      /\ snd b = None /\ snd d = None).
Proof.
  intros H. cbv zeta. unfold send_file_head.
  pose proof H as (_ & _ & _ & Hw).
  destruct (guess_type types local m) as [ctype m'].
  destruct (Str.endswith local "/").
  { left. split; [apply paired_send_error, H|reflexivity]. }
  destruct (negb (os.valid_name _ local)).
  { right. repeat split; exact Hw. }
  destruct (os.open_rb fs local) as [[content mtime]|].
  2:{ left. split; [apply paired_send_error, H|reflexivity]. }
  destruct (match if_modified_since lib (headers h) with
            | Some _ => _ | None => _ end).
  { right. repeat split; exact Hw. }
  destruct (use_browser_cache lib (headers h) mtime).
  { left. split; [|reflexivity]. cbn [fst].
    exact (paired_reply 304 None [] _ _ H eq_refl). }
  destruct (negb (datetime.fromtimestamp_ok mtime)).
  - right. cbn [fst snd raise_ wfile].
    pose proof (http_send_header "Content-Length"
                  (Str.of_Z (Z.of_nat (String.length content))) _ _ _ _
                  (http_send_header "Content-type" ctype _ _ _ _
                     (http_send_response lib 200 None _ _ _ _ H)))
      as (_ & _ & _ & Hw').
    repeat split; exact Hw'.
  - left. split; [|reflexivity]. cbn [fst].
    exact (paired_reply 200 None
             [("Content-type", ctype);
              ("Content-Length", Str.of_Z (Z.of_nat (String.length content)));
              ("Last-Modified", date_time_string lib (Some mtime))] _ _ H eq_refl).
Qed.

Lemma paired_send_head h m c :
  http h c [] "" ->
  let b := send_head (cls := SimpleHTTPRequestHandler) lib fs types h m in
  let d := send_head (cls := DdsHTTPRequestHandler) lib fs types h m in
  (paired (fst (fst b)) (fst (fst d)) c /\ snd b = snd d)
  \/ (wfile (fst (fst b)) = "" /\ wfile (fst (fst d)) = ""
      /\ snd b = None /\ snd d = None).
Proof.
  intros H. cbv zeta. unfold send_head.
  destruct (path_isdir lib fs _).
  2:{ apply paired_send_file_head, H. }
  destruct (negb _).
  { left. split; [|reflexivity]. cbn [fst].
    exact (paired_reply 301 None [("Location", _); ("Content-Length", "0")]
             _ _ H eq_refl). }
  destruct (path_isfile lib fs _).
  { apply paired_send_file_head, H. }
  destruct (path_isfile lib fs _).
  { apply paired_send_file_head, H. }
  unfold list_directory. left.
  destruct (negb _); cbn [fst snd]; (split; [|reflexivity]).
  - apply paired_send_error, H.
  - exact (paired_reply 200 None
             [("Content-type", "text/html; charset=" ++ filesystem_encoding lib);
              ("Content-Length", _)] _ _ H eq_refl).
Qed.

Lemma paired_handle_one_request rl v d m :
  answered_as rl = Some v -> v <> "HTTP/0.9" ->
  exists c,
    paired_or_silent
      (fst (handle_one_request (cls := SimpleHTTPRequestHandler)
              lib fs types rl (new_handler d) m))
      (fst (handle_one_request (cls := DdsHTTPRequestHandler)
              lib fs types rl (new_handler d) m)) c.
Proof.
  intros Ha Hv. unfold paired_or_silent.
  destruct rl as [| | |line cmd version code message explain
                 |line cmd target version hdrs];
    cbn in Ha; try discriminate; injection Ha as <-;
    cbn [handle_one_request].
  - eexists. left. eapply paired_send_error, http_new_request. discriminate.
  - eexists. left. eapply paired_send_error, http_new_request, Hv.
  - pose proof (http_new_request line (Some cmd) target version hdrs d Hv) as H.
    exists (Some cmd).
    destruct (String.eqb cmd "GET").
    + unfold do_GET.
      pose proof (paired_send_head _ m _ H) as P. cbv zeta in P.
      destruct (send_head (cls := SimpleHTTPRequestHandler) _ _ _ _ _)
        as [[g' mg] fg].
      destruct (send_head (cls := DdsHTTPRequestHandler) _ _ _ _ _)
        as [[h' mh] fh].
      cbn [fst snd] in *.
      destruct P as [[P E]|(Hg & Hh & -> & ->)].
      * subst fh. left. destruct fg as [content|]; cbn [fst].
        -- apply paired_write, P.
        -- exact P.
      * right. split; assumption.
    + destruct (String.eqb cmd "HEAD").
      * unfold do_HEAD.
        pose proof (paired_send_head _ m _ H) as P. cbv zeta in P.
        destruct (send_head (cls := SimpleHTTPRequestHandler) _ _ _ _ _)
          as [[g' mg] fg].
        destruct (send_head (cls := DdsHTTPRequestHandler) _ _ _ _ _)
          as [[h' mh] fh].
        cbn [fst snd] in *.
        destruct P as [[P E]|(Hg & Hh & _)]; [left; exact P|right; split; assumption].
      * left. apply paired_send_error, H.
Qed.

End Refinement.

Lemma plain_get_header fs name :
  plain fs = true ->
  Str.lower name = Str.lower (fst COEP) \/ Str.lower name = Str.lower (fst COOP) ->
  get_header name fs = None.
Proof.
  intros Hp Hn. unfold get_header.
  destruct (find _ fs) as [kv|] eqn:E; [|reflexivity].
  apply find_some in E as [Hin He]. apply String.eqb_eq in He.
  unfold plain in Hp. rewrite forallb_forall in Hp.
  specialize (Hp kv Hin).
  apply andb_prop in Hp as [H1%negb_true_iff%String.eqb_neq
                              H2%negb_true_iff%String.eqb_neq].
  destruct Hn as [Hn|Hn]; congruence.
Qed.

(** What the server sends for a request that is answered under a version
    other than HTTP/0.9, against what the base class sends. *)
Lemma sent_against_base env i rl v :
  starts env = true ->
  connections (events env) !! i = Some rl ->
  answered_as rl = Some v ->
  v <> "HTTP/0.9" ->
  (exists r,
     base_answer env (root env) rl = to_bytes r
     /\ sent (fst (run env)) !! i = Some (to_bytes (isolate r))
     /\ plain (fields r) = true)
  \/ (base_answer env (root env) rl = ""
      /\ sent (fst (run env)) !! i = Some "").
Proof.
  intros Hs Hi Ha Hv.
  rewrite (answered env i rl Hs Hi). unfold answer, base_answer.
  destruct (paired_handle_one_request (library env) (files env) (system_types env)
              rl v (root env) (Some (registry env)) Ha Hv)
    as (c & [(r & (_ & _ & _ & Hb) & (_ & _ & _ & Hd) & Hp)|[Hb Hd]]).
  - left. exists r. rewrite Hb, Hd. auto.
  - right. rewrite Hb, Hd. auto.
Qed.

Section Http09.
Variable lib : Library.
Variable fs : os.filesystem.
Variable types : gmap string string * gmap string string.

Lemma version_send_header k x h :
  request_version (send_header k x h) = request_version h.
Proof.
  unfold send_header.
  destruct (String.eqb (Str.lower k) "connection");
    [destruct (String.eqb (Str.lower x) "close");
       [|destruct (String.eqb (Str.lower x) "keep-alive")]|];
    destruct (String.eqb (request_version h) "HTTP/0.9"); reflexivity.
Qed.

Lemma version_send_response code msg h :
  request_version (send_response lib code msg h) = request_version h.
Proof.
  unfold send_response. rewrite !version_send_header.
  unfold send_response_only, log_request.
  cbn [log_message request_version].
  destruct (String.eqb (request_version h) "HTTP/0.9"); reflexivity.
Qed.

(** Under HTTP/0.9 the [end_headers] of the script is the one of the
    library: neither does anything. *)
Lemma end_headers_09 h :
  request_version h = "HTTP/0.9" ->
  DdsHTTPRequestHandler_end_headers h = BaseHTTPRequestHandler_end_headers h.
Proof.
  intros Hv. unfold DdsHTTPRequestHandler_end_headers.
  assert (forall k x, String.eqb (Str.lower k) "connection" = false ->
            send_header k x h = h) as Hh.
  { intros k x Hk. unfold send_header. rewrite Hk, Hv. reflexivity. }
  rewrite !Hh by reflexivity. reflexivity.
Qed.

Ltac versions Hv :=
  rewrite ?version_send_header, ?version_send_response; exact Hv.

Lemma send_error_09 code message explain h :
  request_version h = "HTTP/0.9" ->
  send_error (cls := DdsHTTPRequestHandler) lib code message explain h
  = send_error (cls := SimpleHTTPRequestHandler) lib code message explain h.
Proof.
  intros Hv. unfold send_error, log_error.
  destruct (match responses lib code with Some sl => sl | None => ("???", "???") end)
    as [shortmsg longmsg].
  cbn [self_end_headers DdsHTTPRequestHandler SimpleHTTPRequestHandler].
  destruct ((200 <=? code) && negb ((code =? 204) || (code =? 205) || (code =? 304)));
    rewrite end_headers_09 by versions Hv; reflexivity.
Qed.

Lemma send_file_head_09 local h m :
  request_version h = "HTTP/0.9" ->
  send_file_head (cls := DdsHTTPRequestHandler) lib fs types local h m
  = send_file_head (cls := SimpleHTTPRequestHandler) lib fs types local h m.
Proof.
  intros Hv. unfold send_file_head.
  destruct (guess_type types local m) as [ctype m'].
  rewrite (send_error_09 _ _ _ _ Hv).
  destruct (Str.endswith local "/"); [reflexivity|].
  destruct (negb (os.valid_name _ local)); [reflexivity|].
  destruct (os.open_rb fs local) as [[content mtime]|]; [|reflexivity].
  destruct (match if_modified_since lib (headers h) with
            | Some _ => _ | None => _ end); [reflexivity|].
  cbn [self_end_headers DdsHTTPRequestHandler SimpleHTTPRequestHandler].
  destruct (use_browser_cache lib (headers h) mtime);
    [|destruct (negb (datetime.fromtimestamp_ok mtime)); [reflexivity|]];
    rewrite end_headers_09 by versions Hv; reflexivity.
Qed.

Lemma send_head_09 h m :
  request_version h = "HTTP/0.9" ->
  send_head (cls := DdsHTTPRequestHandler) lib fs types h m
  = send_head (cls := SimpleHTTPRequestHandler) lib fs types h m.
Proof.
  intros Hv. unfold send_head, list_directory.
  rewrite !(send_file_head_09 _ _ _ Hv), (send_error_09 _ _ _ _ Hv).
  cbn [self_end_headers DdsHTTPRequestHandler SimpleHTTPRequestHandler].
  rewrite !end_headers_09 by versions Hv. reflexivity.
Qed.

Lemma handle_one_request_09 rl d m :
  (forall v, answered_as rl = Some v -> v = "HTTP/0.9") ->
  handle_one_request (cls := DdsHTTPRequestHandler) lib fs types rl (new_handler d) m
  = handle_one_request (cls := SimpleHTTPRequestHandler) lib fs types rl
      (new_handler d) m.
Proof.
  intros Ha.
  destruct rl as [| | |line cmd version code message explain
                 |line cmd target version hdrs];
    cbn [answered_as] in Ha; cbn [handle_one_request]; try reflexivity.
  - specialize (Ha _ eq_refl). discriminate.
  - rewrite send_error_09 by (exact (Ha _ eq_refl)). reflexivity.
  - unfold do_GET, do_HEAD.
    rewrite send_head_09, send_error_09 by (exact (Ha _ eq_refl)). reflexivity.
Qed.

End Http09.

Lemma sent_under_http09 env i rl :
  starts env = true ->
  connections (events env) !! i = Some rl ->
  (forall v, answered_as rl = Some v -> v = "HTTP/0.9") ->
  sent (fst (run env)) !! i = Some (base_answer env (root env) rl).
Proof.
  intros Hs Hi Ha. rewrite (answered env i rl Hs Hi).
  unfold answer, base_answer.
  now rewrite (handle_one_request_09 _ _ _ rl (root env) _ Ha).
Qed.

(** The answer to a request for a readable file whose name ends in
    [.dds], in whatever case. *)
Lemma dds_file_answer env i line cmd target version hdrs pre e content mtime :
  starts env = true ->
  connections (events env) !! i = Some (Parsed line cmd target version hdrs) ->
  cmd = "GET" \/ cmd = "HEAD" ->
  version <> "HTTP/0.9" ->
  translate_path (library env) (root env) target = pre ++ String "." e ->
  Str.lower e = "dds" ->
  has_stem pre = true \/ snd (system_types env) !! "" = None ->
  os.valid_name (fsencodable (library env)) (pre ++ String "." e) = true ->
  files env (pre ++ String "." e) = Some (os.RegularFile content mtime true) ->
  datetime.fromtimestamp_ok mtime = true ->
  use_browser_cache (library env) hdrs mtime = false ->
  sent (fst (run env)) !! i
  = Some (to_bytes (file_response (library env) "application/octet-stream"
                      content mtime (String.eqb cmd "GET"))).
Proof.
  intros Hs Hi Hcmd Hv Ht He Hst Hn Hf Hok Hc.
  rewrite (answered env i _ Hs Hi).
  rewrite (answer_file env (root env) line cmd target version hdrs content mtime
             Hcmd Hv); rewrite ?Ht; auto using dds_name_is_no_directory_name.
  rewrite Hc. unfold registry.
  rewrite (guess_type_dds_name _ pre e He Hst). reflexivity.
Qed.

(* ===================================================================== *)
(** * Requests that get no answer *)
(* ===================================================================== *)

Lemma wfile_send_header k x h : wfile (send_header k x h) = wfile h.
Proof.
  unfold send_header.
  destruct (String.eqb (Str.lower k) "connection");
    [destruct (String.eqb (Str.lower x) "close");
       [|destruct (String.eqb (Str.lower x) "keep-alive")]|];
    destruct (String.eqb (request_version h) "HTTP/0.9"); reflexivity.
Qed.

Lemma wfile_send_response lib code msg h :
  wfile (send_response lib code msg h) = wfile h.
Proof.
  unfold send_response. rewrite !wfile_send_header.
  unfold send_response_only, log_request.
  cbn [log_message request_version].
  destruct (String.eqb (request_version h) "HTTP/0.9"); reflexivity.
Qed.

(** A GET or HEAD for a name that the operating system does not accept
    (one with a NUL character, say) and that does not end in a slash:
    [open] raises [ValueError], which [send_head] does not catch.
    Nothing is sent; [socketserver] reports the exception and the server
    goes on. *)
Lemma bad_name_is_not_answered env i line cmd target version hdrs :
  starts env = true ->
  connections (events env) !! i = Some (Parsed line cmd target version hdrs) ->
  cmd = "GET" \/ cmd = "HEAD" ->
  os.valid_name (fsencodable (library env))
    (translate_path (library env) (root env) target) = false ->
  Str.endswith (translate_path (library env) (root env) target) "/" = false ->
  sent (fst (run env)) !! i = Some ""
  /\ exception_of env (root env) (Parsed line cmd target version hdrs)
     = Some "ValueError"
  /\ length (sent (fst (run env))) = length (connections (events env)).
Proof.
  intros Hs Hi Hcmd Hn He.
  rewrite (answered env i _ Hs Hi), (sent_run env Hs), length_map.
  unfold answer, exception_of. cbn [handle_one_request].
  destruct Hcmd as [-> | ->]; cbn [String.eqb Ascii.eqb Bool.eqb];
    [unfold do_GET | unfold do_HEAD]; unfold send_head, path_isdir;
    cbn [directory path set_request new_handler];
    rewrite Hn; cbn [andb]; unfold send_file_head;
    destruct (guess_type _ _ _) as [ctype m'];
    rewrite He, Hn; cbn; repeat split; reflexivity.
Qed.

(** A GET or HEAD for a readable file whose modification time is no date
    of the years 1 to 9999: the library raises when it turns the time
    into a date, before the header block is flushed.  Nothing is sent. *)
Lemma undatable_file_is_not_answered
    env i line cmd target version hdrs content mtime :
  starts env = true ->
  connections (events env) !! i = Some (Parsed line cmd target version hdrs) ->
  cmd = "GET" \/ cmd = "HEAD" ->
  files env (translate_path (library env) (root env) target)
  = Some (os.RegularFile content mtime true) ->
  Str.endswith (translate_path (library env) (root env) target) "/" = false ->
  os.valid_name (fsencodable (library env))
    (translate_path (library env) (root env) target) = true ->
  datetime.fromtimestamp_ok mtime = false ->
  sent (fst (run env)) !! i = Some ""
  /\ exception_of env (root env) (Parsed line cmd target version hdrs)
     = Some "ValueError"
  /\ length (sent (fst (run env))) = length (connections (events env)).
Proof.
  intros Hs Hi Hcmd Hf He Hn Hok.
  rewrite (answered env i _ Hs Hi), (sent_run env Hs), length_map.
  unfold answer, exception_of. cbn [handle_one_request].
  destruct Hcmd as [-> | ->]; cbn [String.eqb Ascii.eqb Bool.eqb];
    [unfold do_GET | unfold do_HEAD]; unfold send_head;
    cbn [directory path set_request new_handler];
    rewrite (path_isdir_false _ _ _ (isdir_regular _ _ _ _ _ Hf));
    unfold send_file_head;
    destruct (guess_type _ _ _) as [ctype m'];
    rewrite He, Hn; unfold os.open_rb; rewrite Hf, Hok;
    cbn [negb headers set_request]; unfold use_browser_cache;
    destruct (if_modified_since (library env) hdrs);
    cbn [fst snd raise_ wfile raised];
    rewrite ?wfile_send_header, ?wfile_send_response;
    repeat split; reflexivity.
Qed.

(* ===================================================================== *)
(** * The claims of the specification *)
(* ===================================================================== *)

(** ** C1 *)

(** C1, as the code has it.  (1) What the server sends for a request that
    is answered under a version other than HTTP/0.9 is the response of
    the base class with [Cross-Origin-Embedder-Policy: require-corp] and
    [Cross-Origin-Opener-Policy: same-origin] put after its last header,
    just before the header block is closed: the status line, the headers
    before them and the body are those of the base class.  This holds for
    files, redirects, listings and errors alike.  The one other case is
    that the handler raises before the header block is flushed; then
    nothing is sent, by either class.  (2) Under HTTP/0.9 the server
    sends what the base class sends: the two headers are not added. *)
Theorem isolation_headers_close_every_header_block env i rl v :
  starts env = true ->
  connections (events env) !! i = Some rl ->
  answered_as rl = Some v ->
  (v <> "HTTP/0.9" ->
     (exists r,
        base_answer env (root env) rl = to_bytes r
        /\ sent (fst (run env)) !! i = Some (to_bytes (isolate r)))
     \/ (base_answer env (root env) rl = ""
         /\ sent (fst (run env)) !! i = Some ""))
  /\ (v = "HTTP/0.9" ->
        sent (fst (run env)) !! i = Some (base_answer env (root env) rl)).
Proof.
  intros Hs Hi Ha. split.
  - intros Hv.
    destruct (sent_against_base env i rl v Hs Hi Ha Hv)
      as [(r & Hb & Hd & _)|[Hb Hd]].
    + left. exists r. split; assumption.
    + right. split; assumption.
  - intros Hv. apply sent_under_http09; try assumption.
    intros v' Ha'. rewrite Ha in Ha'. congruence.
Qed.

(** The theorem at work on the 404 for a missing file: the response is
    that of the base class with the two headers. *)
Lemma isolation_headers_close_every_header_block_witness :
  let env := demo (Some (os.Directory true)) None None
               [Connection (GET "/no.dds" "HTTP/1.1" [])] in
  exists r,
    base_answer env (root env) (GET "/no.dds" "HTTP/1.1" []) = to_bytes r
    /\ sent (fst (run env)) !! 0%nat = Some (to_bytes (isolate r)).
Proof.
  cbv zeta.
  destruct (proj1 (isolation_headers_close_every_header_block
                     (demo (Some (os.Directory true)) None None
                        [Connection (GET "/no.dds" "HTTP/1.1" [])])
                     0%nat (GET "/no.dds" "HTTP/1.1" []) "HTTP/1.1"
                     eq_refl eq_refl eq_refl))
    as [H|[H _]].
  - discriminate.
  - exact H.
  - exfalso. vm_compute in H. discriminate H.
Defined.

(** C1 as stated, for every response, fails.  A request line without a
    version ([GET /tex.dds]) is an HTTP/0.9 request, and a request line
    whose version cannot be parsed is answered under the default version
    HTTP/0.9; [send_header] and [end_headers] then write nothing, so the
    file and the error page go out bare: what is sent is no response with
    a status line, let alone one with the two headers. *)
Lemma no_headers_under_http09 :
  let env := demo (Some (os.Directory true)) None None
               [Connection (GET09 "/tex.dds");
                Connection (Rejected "GET / FOO" None "HTTP/0.9" 400
                              "Bad request version ('FOO')" None)] in
  starts env = true
  /\ sent (fst (run env))
     = ["DDS |";
        "<p>Error code: 400</p><p>Message: Bad request version ('FOO').</p>"]
  /\ Forall (fun bytes => forall r, bytes <> to_bytes r) (sent (fst (run env))).
Proof.
  assert (forall a s r, a <> "H"%char -> String a s <> to_bytes r) as N.
  { intros a s r Ha E.
    destruct (to_bytes_starts_with_version r) as [rest Hr].
    rewrite Hr in E. congruence. }
  cbv zeta. split; [reflexivity|]. split; [vm_compute; reflexivity|].
  replace (sent _) with
    ["DDS |";
     "<p>Error code: 400</p><p>Message: Bad request version ('FOO').</p>"]
    by (vm_compute; reflexivity).
  repeat constructor; intros r; apply N; discriminate.
Qed.


(** ** C2 *)

(** C2, as the code has it.  A GET or HEAD request that [parse_request]
    accepts, under a version other than HTTP/0.9 and without a satisfied
    [If-Modified-Since], for a readable regular file whose name ends in
    [.dds] and whose modification time is a date of the years 1 to 9999
    is answered 200 with [Content-type: application/octet-stream],
    whatever the system's MIME tables say about [.dds]: the bytes sent
    are the status line, [Server], [Date], this [Content-type], the
    [Content-Length] and [Last-Modified] of the file, the two isolation
    headers, the blank line and, for GET, the content.  (For a name that
    is only dots before [.dds], which has no extension, this is the type
    of last resort; it needs that the system has no type for the empty
    extension.) *)
Theorem dds_files_are_served_as_octet_stream
    env i line cmd target version hdrs pre content mtime :
  starts env = true ->
  connections (events env) !! i = Some (Parsed line cmd target version hdrs) ->
  cmd = "GET" \/ cmd = "HEAD" ->
  version <> "HTTP/0.9" ->
  translate_path (library env) (root env) target = pre ++ ".dds" ->
  has_stem pre = true \/ snd (system_types env) !! "" = None ->
  os.valid_name (fsencodable (library env)) (pre ++ ".dds") = true ->
  files env (pre ++ ".dds") = Some (os.RegularFile content mtime true) ->
  datetime.fromtimestamp_ok mtime = true ->
  use_browser_cache (library env) hdrs mtime = false ->
  sent (fst (run env)) !! i
  = Some (to_bytes (file_response (library env) "application/octet-stream"
                      content mtime (String.eqb cmd "GET"))).
Proof.
  intros Hs Hi Hcmd Hv Ht Hst Hn Hf Hok Hc.
  exact (dds_file_answer env i line cmd target version hdrs pre "dds"
           content mtime Hs Hi Hcmd Hv Ht eq_refl Hst Hn Hf Hok Hc).
Qed.

(** The theorem at work: the system maps [.dds] to [image/vnd-ms.dds]. *)
Lemma dds_files_are_served_as_octet_stream_witness :
  let env := demo (Some (os.Directory true)) None None
               [Connection (GET "/tex.dds" "HTTP/1.1" [])] in
  snd (system_types env) !! ".dds" = Some "image/vnd-ms.dds"
  /\ sent (fst (run env)) !! 0%nat
     = Some (to_bytes (file_response (library env) "application/octet-stream"
                         "DDS |" 7 true)).
Proof.
  cbv zeta. split; [reflexivity|].
  apply (dds_files_are_served_as_octet_stream
           (demo (Some (os.Directory true)) None None
              [Connection (GET "/tex.dds" "HTTP/1.1" [])])
           0%nat "GET /tex.dds HTTP/1.1" "GET" "/tex.dds" "HTTP/1.1" []
           "/srv/dist/tex" "DDS |" 7).
  - reflexivity.
  - reflexivity.
  - left; reflexivity.
  - discriminate.
  - reflexivity.
  - left; reflexivity.
  - reflexivity.
  - reflexivity.
  - reflexivity.
  - reflexivity.
Defined.

(** C2 as stated, for every request whose path ends in [.dds], fails: when
    no such file is there, the answer is the 404 page, of type
    [text/html;charset=utf-8]. *)
Lemma missing_dds_is_answered_in_html :
  let env := demo (Some (os.Directory true)) None None
               [Connection (GET "/no.dds" "HTTP/1.1" [])] in
  let r := error_response demo_library (Some "GET") 404
             (Some "File not found") None in
  starts env = true
  /\ sent (fst (run env)) = [to_bytes r]
  /\ status r = 404
  /\ get_header "Content-Type" (fields r) = Some "text/html;charset=utf-8".
Proof.
  cbv zeta. split; [reflexivity|]. split; [vm_compute; reflexivity|].
  split; reflexivity.
Qed.


(** ** C3 *)





(** ** C4 *)

(** C4, as the code has it.  For a GET request that [parse_request]
    accepts, under a version other than HTTP/0.9, whose path resolves
    from the serving root to a readable regular file with a modification
    time of the years 1 to 9999: (1) without an [If-Modified-Since] that
    the modification time satisfies, the bytes sent are the status line
    of 200, the headers ([Server], [Date], the [Content-type] that
    [guess_type] derives from the registry the script has extended,
    [Content-Length], [Last-Modified], the two isolation headers), the
    blank line and the content of the file, byte for byte; (2) with one,
    they are the status line of 304 and its headers, without a body. *)
Theorem get_returns_the_file env i line target version hdrs content mtime :
  starts env = true ->
  connections (events env) !! i = Some (Parsed line "GET" target version hdrs) ->
  version <> "HTTP/0.9" ->
  files env (translate_path (library env) (root env) target)
    = Some (os.RegularFile content mtime true) ->
  Str.endswith (translate_path (library env) (root env) target) "/" = false ->
  os.valid_name (fsencodable (library env))
    (translate_path (library env) (root env) target) = true ->
  datetime.fromtimestamp_ok mtime = true ->
  (use_browser_cache (library env) hdrs mtime = false ->
     sent (fst (run env)) !! i
     = Some (to_bytes
               (file_response (library env)
                  (fst (guess_type (system_types env)
                          (translate_path (library env) (root env) target)
                          (Some (registry env))))
                  content mtime true)))
  /\ (use_browser_cache (library env) hdrs mtime = true ->
        sent (fst (run env)) !! i
        = Some (to_bytes (not_modified_response (library env)))).
Proof.
  intros Hs Hi Hv Hf He Hn Hok.
  rewrite (answered env i _ Hs Hi).
  rewrite (answer_file env (root env) line "GET" target version hdrs
             content mtime (or_introl eq_refl) Hv Hf He Hn Hok).
  split; intros ->; reflexivity.
Qed.

(** The theorem at work on the texture of the demonstration world. *)
Lemma get_returns_the_file_witness :
  let env := demo (Some (os.Directory true)) None None
               [Connection (GET "/tex.dds" "HTTP/1.1" [])] in
  sent (fst (run env)) !! 0%nat
  = Some (to_bytes
            (file_response (library env)
               (fst (guess_type (system_types env) "/srv/dist/tex.dds"
                       (Some (registry env))))
               "DDS |" 7 true)).
Proof.
  apply (get_returns_the_file
           (demo (Some (os.Directory true)) None None
              [Connection (GET "/tex.dds" "HTTP/1.1" [])])
           0%nat "GET /tex.dds HTTP/1.1" "/tex.dds" "HTTP/1.1" [] "DDS |" 7).
  - reflexivity.
  - reflexivity.
  - discriminate.
  - reflexivity.
  - reflexivity.
  - reflexivity.
  - reflexivity.
  - reflexivity.
Defined.

(** C4 as stated, for every GET request, fails: with an
    [If-Modified-Since] date that is not before the modification time of
    the file, the answer is 304 with an empty body. *)
Lemma conditional_get_is_answered_304 :
  let env := demo (Some (os.Directory true)) None None
               [Connection (GET "/tex.dds" "HTTP/1.1"
                  [("If-Modified-Since", "Tue, 03 Nov 2026 00:00:00 GMT")])] in
  let r := {| status := 304; reason := "Not Modified";
              fields := server_fields demo_library ++ [COEP; COOP];
              body := "" |} in
  starts env = true
  /\ files env "/srv/dist/tex.dds" = Some (os.RegularFile "DDS |" 7 true)
  /\ sent (fst (run env)) = [to_bytes r].
Proof.
  cbv zeta. split; [reflexivity|]. split; [reflexivity|].
  vm_compute; reflexivity.
Qed.


(** ** C5 *)

(** C5.  (1) When [KeyboardInterrupt] is raised inside [serve_forever],
    after any number of connections, the script prints the farewell line,
    closes the listening socket (its last system call), answers no
    connection that comes after the interrupt, and ends with status 0.
    (2) Status 0 is reached in no other way: it needs a start-up that
    succeeded and an interrupt as the exception that ends the loop. *)
Theorem interrupt_while_serving_ends_the_script_cleanly env :
  (forall rls later,
     starts env = true ->
     events env = (map Connection rls ++ Exception KeyboardInterrupt :: later)%list ->
     snd (run env) = Some 0
     /\ sock (fst (run env)) = Closed
     /\ last (calls (fst (run env))) = Some SysClose
     /\ stdout (fst (run env)) = [serving_line; note_line; stopped_line]
     /\ sent (fst (run env)) = map (answer env (root env)) rls)
  /\ (snd (run env) = Some 0 ->
        starts env = true /\ stops (events env) = Some KeyboardInterrupt).
Proof.
  split.
  - intros rls later Hs He.
    destruct (connections_until_exception rls KeyboardInterrupt later) as [Hc Hst].
    rewrite <- He in Hc, Hst.
    destruct (run_starts_state env Hs) as (_ & _ & H3 & H4 & H5 & H6).
    cbv zeta in *. rewrite Hst in *.
    rewrite H3, H4, H5, H6, (sent_run env Hs), Hc.
    repeat split; try reflexivity.
    unfold ready. cbn [calls].
    destruct (os.isdir (files env) (dist_path env)); reflexivity.
  - intros H0. destruct (starts env) eqn:Hs.
    + split; [reflexivity|].
      destruct (run_starts_state env Hs) as (_ & _ & _ & _ & _ & H6).
      cbv zeta in H6. rewrite H6 in H0.
      destruct (stops (events env)) as [[]|]; congruence.
    + destruct (run_stillborn env Hs) as (_ & _ & _ & [H|H] & _);
        rewrite H in H0; discriminate.
Qed.

(** The theorem at work: one request, the interrupt, one more request. *)
Lemma interrupt_while_serving_ends_the_script_cleanly_witness :
  let env := demo (Some (os.Directory true)) None None
               [Connection (GET "/tex.dds" "HTTP/1.1" []);
                Exception KeyboardInterrupt;
                Connection (GET "/tex.dds" "HTTP/1.1" [])] in
  snd (run env) = Some 0
  /\ sock (fst (run env)) = Closed
  /\ last (calls (fst (run env))) = Some SysClose
  /\ stdout (fst (run env)) = [serving_line; note_line; stopped_line]
  /\ sent (fst (run env))
     = map (answer env (root env)) [GET "/tex.dds" "HTTP/1.1" []].
Proof.
  apply (proj1 (interrupt_while_serving_ends_the_script_cleanly
                  (demo (Some (os.Directory true)) None None
                     [Connection (GET "/tex.dds" "HTTP/1.1" []);
                      Exception KeyboardInterrupt;
                      Connection (GET "/tex.dds" "HTTP/1.1" [])]))
           [GET "/tex.dds" "HTTP/1.1" []]
           [Connection (GET "/tex.dds" "HTTP/1.1" [])]).
  - reflexivity.
  - reflexivity.
Defined.


(** ** C6 *)

(** C6, as the code has it.  A GET or HEAD request that [parse_request]
    accepts, under a version other than HTTP/0.9, for a name that the
    operating system accepts, that is no directory and that cannot be
    opened (nothing is there, or it cannot be read) is answered 404, with
    the library's page.  Handling it raises no exception; every
    connection of the run, before and after, gets its answer; and while
    no exception arrives the script is still serving, its socket
    listening. *)
Theorem missing_path_is_answered_404 env i line cmd target version hdrs :
  starts env = true ->
  connections (events env) !! i = Some (Parsed line cmd target version hdrs) ->
  cmd = "GET" \/ cmd = "HEAD" ->
  version <> "HTTP/0.9" ->
  os.valid_name (fsencodable (library env))
    (translate_path (library env) (root env) target) = true ->
  os.isdir (files env) (translate_path (library env) (root env) target) = false ->
  os.open_rb (files env) (translate_path (library env) (root env) target) = None ->
  sent (fst (run env)) !! i
  = Some (to_bytes (error_response (library env) (Some cmd) 404
                      (Some "File not found") None))
  /\ exception_of env (root env) (Parsed line cmd target version hdrs) = None
  /\ length (sent (fst (run env))) = length (connections (events env))
  /\ (stops (events env) = None ->
        snd (run env) = None /\ sock (fst (run env)) = Listening).
Proof.
  intros Hs Hi Hcmd Hv Hn Hd Ho. split; [|split; [|split]].
  - rewrite (answered env i _ Hs Hi). f_equal.
    apply answer_missing; assumption.
  - apply missing_raises_nothing; assumption.
  - rewrite (sent_run env Hs). apply length_map.
  - intros Hstop. rewrite (run_starts env Hs), Hstop. cbn [ends fst snd].
    split; [reflexivity|].
    destruct (served_spec env (connections (events env)) (ready env)
                (registry env) eq_refl) as (_ & _ & H & _).
    exact H.
Qed.

(** The theorem at work: a missing file, then a file that is there. *)
Lemma missing_path_is_answered_404_witness :
  let env := demo (Some (os.Directory true)) None None
               [Connection (GET "/no.dds" "HTTP/1.1" []);
                Connection (GET "/tex.dds" "HTTP/1.1" [])] in
  sent (fst (run env)) !! 0%nat
  = Some (to_bytes (error_response (library env) (Some "GET") 404
                      (Some "File not found") None))
  /\ exception_of env (root env) (GET "/no.dds" "HTTP/1.1" []) = None
  /\ length (sent (fst (run env))) = 2%nat
  /\ snd (run env) = None
  /\ sock (fst (run env)) = Listening.
Proof.
  destruct (missing_path_is_answered_404
              (demo (Some (os.Directory true)) None None
                 [Connection (GET "/no.dds" "HTTP/1.1" []);
                  Connection (GET "/tex.dds" "HTTP/1.1" [])])
              0%nat "GET /no.dds HTTP/1.1" "GET" "/no.dds" "HTTP/1.1" []
              eq_refl eq_refl (or_introl eq_refl))
    as (H1 & H2 & H3 & H4).
  - discriminate.
  - reflexivity.
  - reflexivity.
  - reflexivity.
  - split; [exact H1|]. split; [exact H2|]. split; [exact H3|].
    exact (H4 eq_refl).
Defined.

(** C6 as stated, for every path that does not resolve to a file, fails:
    the path [/] resolves to a directory, not to a file, and is answered
    200 with a listing. *)
Lemma directory_path_is_answered_200 :
  let env := demo (Some (os.Directory true)) None None
               [Connection (GET "/" "HTTP/1.1" [])] in
  let page := "<h1>Directory listing for /</h1>" in
  let r := {| status := 200; reason := "OK";
              fields := server_fields demo_library
                        ++ [("Content-type", "text/html; charset=utf-8");
                            ("Content-Length", "32")]
                        ++ [COEP; COOP];
              body := page |} in
  starts env = true
  /\ translate_path (library env) (root env) "/" = "/srv/dist/"
  /\ os.isfile (files env) "/srv/dist/" = false
  /\ sent (fst (run env)) = [to_bytes r].
Proof.
  cbv zeta. split; [reflexivity|]. split; [reflexivity|]. split; [reflexivity|].
  vm_compute; reflexivity.
Qed.


(** ** C7 *)

(** C7.  When start-up gets as far as [bind] (no interrupt, no failure
    of [chdir]) and [bind] fails, the [OSError] is not caught: the script
    ends with status 1 and a traceback, having called [bind] once, on
    port 8080, having closed the socket, and having printed and served
    nothing. *)
Theorem bind_failure_ends_the_script env errno :
  sigint env = None ->
  os.isfile (files env) (dist_path env) = false ->
  chdir_errno env = None ->
  bind_errno env = Some errno ->
  snd (run env) = Some 1
  /\ binds (calls (fst (run env))) = [SysBind "" 8080]
  /\ sock (fst (run env)) = Closed
  /\ stdout (fst (run env)) = []
  /\ sent (fst (run env)) = []
  /\ stderr (fst (run env)) = ["Traceback (most recent call last):"].
Proof.
  intros Hsig Hf Hc Hb. unfold os.isfile in Hf.
  run_cases env; try discriminate; repeat split; reflexivity.
Qed.

(** The theorem at work: the port is in use. *)
Lemma bind_failure_ends_the_script_witness :
  let env := demo (Some (os.Directory true)) (Some "EADDRINUSE") None
               [Connection (GET "/tex.dds" "HTTP/1.1" [])] in
  snd (run env) = Some 1
  /\ binds (calls (fst (run env))) = [SysBind "" 8080]
  /\ sock (fst (run env)) = Closed
  /\ stdout (fst (run env)) = []
  /\ sent (fst (run env)) = []
  /\ stderr (fst (run env)) = ["Traceback (most recent call last):"].
Proof.
  apply (bind_failure_ends_the_script
           (demo (Some (os.Directory true)) (Some "EADDRINUSE") None
              [Connection (GET "/tex.dds" "HTTP/1.1" [])]) "EADDRINUSE").
  - reflexivity.
  - reflexivity.
  - reflexivity.
  - reflexivity.
Defined.


(** ** C8 *)

(** C8.  Once start-up has succeeded, no sequence of events changes the
    working directory or the MIME registry: they are what they are when no
    connection has arrived, and [.dds] maps to
    [application/octet-stream]. *)
Theorem requests_leave_registry_and_directory_alone env evs :
  starts env = true ->
  cwd (fst (run (with_events env evs))) = cwd (fst (run (with_events env [])))
  /\ mime (fst (run (with_events env evs)))
     = mime (fst (run (with_events env [])))
  /\ registered (mime (fst (run (with_events env evs)))) ".dds"
     = Some "application/octet-stream".
Proof.
  intros Hs.
  assert (forall l, starts (with_events env l) = true) as Hl by (intros l; exact Hs).
  destruct (run_starts_state _ (Hl evs)) as (H1 & H2 & _).
  destruct (run_starts_state _ (Hl [])) as (H1' & H2' & _).
  cbv zeta in *. rewrite H1, H2, H1', H2'.
  split; [reflexivity|]. split; [reflexivity|].
  unfold registered, registry, mimetypes.MimeTypes_add_type.
  cbn [mimetypes.types_map snd]. apply lookup_insert_eq.
Qed.

(** The theorem at work on two requests. *)
Lemma requests_leave_registry_and_directory_alone_witness :
  let env := demo (Some (os.Directory true)) None None [] in
  let evs := [Connection (GET "/tex.dds" "HTTP/1.1" []);
              Connection (GET "/no.dds" "HTTP/1.1" [])] in
  cwd (fst (run (with_events env evs))) = cwd (fst (run (with_events env [])))
  /\ mime (fst (run (with_events env evs)))
     = mime (fst (run (with_events env [])))
  /\ registered (mime (fst (run (with_events env evs)))) ".dds"
     = Some "application/octet-stream".
Proof.
  apply (requests_leave_registry_and_directory_alone
           (demo (Some (os.Directory true)) None None [])
           [Connection (GET "/tex.dds" "HTTP/1.1" []);
            Connection (GET "/no.dds" "HTTP/1.1" [])]).
  reflexivity.
Defined.


(** ** C9 *)

(** C9.  When [dist] is a regular file, [os.path.exists] holds, and the
    script ends with an error status before it touches the network: the
    only call it may have made is the [chdir], the working directory has
    not changed, no socket was made or bound.  Without an interrupt the
    error is the [OSError] of [chdir], and the status is 1. *)
Theorem dist_that_is_a_file_ends_the_script_before_bind
    env content mtime readable :
  files env (dist_path env) = Some (os.RegularFile content mtime readable) ->
  os.exists_ (files env) (dist_path env) = true
  /\ (forall c, In c (calls (fst (run env))) -> c = SysChdir (dist_path env))
  /\ sock (fst (run env)) = NoSocket
  /\ cwd (fst (run env)) = launch_dir env
  /\ (snd (run env) = Some 1 \/ snd (run env) = Some 130)
  /\ (sigint env = None ->
        snd ((module_init env ;; main env) (launch env))
        = Raise (OSError "ENOTDIR")
        /\ snd (run env) = Some 1).
Proof.
  intros Hf. split; [unfold os.exists_; now rewrite Hf|].
  assert (snd ((module_init env;; main env) (launch env))
          = snd (let '(p, o) := (module_init env;; main env) (launch env) in (p, o)))
    as -> by now destruct ((module_init env;; main env) (launch env)).
  run_cases env; try discriminate;
    (split; [cbn; intuition congruence|]);
    repeat split; try reflexivity;
    try (left; reflexivity); try (right; reflexivity);
    intros; try discriminate; reflexivity.
Qed.

(** The theorem at work: [dist] is a regular file. *)
Lemma dist_that_is_a_file_ends_the_script_before_bind_witness :
  let env := demo (Some (os.RegularFile "not a directory" 3 true)) None None
               [Connection (GET "/tex.dds" "HTTP/1.1" [])] in
  os.exists_ (files env) (dist_path env) = true
  /\ (forall c, In c (calls (fst (run env))) -> c = SysChdir "/srv/dist")
  /\ sock (fst (run env)) = NoSocket
  /\ cwd (fst (run env)) = "/srv"
  /\ snd ((module_init env ;; main env) (launch env))
     = Raise (OSError "ENOTDIR")
  /\ snd (run env) = Some 1.
Proof.
  destruct (dist_that_is_a_file_ends_the_script_before_bind
              (demo (Some (os.RegularFile "not a directory" 3 true)) None None
                 [Connection (GET "/tex.dds" "HTTP/1.1" [])])
              "not a directory" 3 true eq_refl)
    as (H1 & H2 & H3 & H4 & _ & H6).
  destruct (H6 eq_refl) as (H7 & H8).
  repeat split; assumption.
Defined.

(** ** C10 *)

(** C10.  An interrupt that arrives during start-up is not caught: the
    farewell line is not printed, the status is not 0, and the socket is
    not left open.  When start-up gets as far as the interrupt ([dist]
    is no regular file, and [chdir] and [bind] do not fail before it), the
    script ends by [KeyboardInterrupt] with status 130; at either [print]
    the socket exists, and closing it is the last system call. *)
Theorem interrupt_during_startup_is_not_caught env pt :
  sigint env = Some pt ->
  ~ In stopped_line (stdout (fst (run env)))
  /\ (snd (run env) = Some 1 \/ snd (run env) = Some 130)
  /\ (sock (fst (run env)) = NoSocket \/ sock (fst (run env)) = Closed)
  /\ (os.isfile (files env) (dist_path env) = false ->
        chdir_errno env = None \/ pt = AtAddType \/ pt = AtExists ->
        bind_errno env = None \/ pt = AtAddType \/ pt = AtExists \/ pt = AtBind ->
        snd ((module_init env ;; main env) (launch env)) = Raise KeyboardInterrupt
        /\ snd (run env) = Some 130
        /\ (pt = AtPrintServing \/ pt = AtPrintNote ->
              sock (fst (run env)) = Closed
              /\ last (calls (fst (run env))) = Some SysClose)).
Proof.
  intros Hsig.
  assert (starts env = false) as Hs by (unfold starts; now rewrite Hsig).
  destruct (run_stillborn env Hs) as (_ & H2 & H3 & H4 & _).
  split; [exact H2|]. split; [exact H4|]. split; [exact H3|].
  clear H2 H3 H4 Hs.
  assert (snd ((module_init env;; main env) (launch env))
          = snd (let '(p, o) := (module_init env;; main env) (launch env) in (p, o)))
    as -> by now destruct ((module_init env;; main env) (launch env)).
  unfold os.isfile.
  run_cases env; try discriminate; injection Hsig as <-;
    intros Hf Hc Hb; try discriminate Hf;
    try (destruct Hc as [Hc|[Hc|Hc]]; discriminate Hc);
    try (destruct Hb as [Hb|[Hb|[Hb|Hb]]]; discriminate Hb);
    (split; [reflexivity|]); (split; [reflexivity|]);
    intros [Hp|Hp]; try discriminate Hp; split; reflexivity.
Qed.

(** The theorem at work: the interrupt arrives at the second [print]. *)
Lemma interrupt_during_startup_is_not_caught_witness :
  let env := demo (Some (os.Directory true)) None (Some AtPrintNote)
               [Exception KeyboardInterrupt] in
  ~ In stopped_line (stdout (fst (run env)))
  /\ snd ((module_init env ;; main env) (launch env)) = Raise KeyboardInterrupt
  /\ snd (run env) = Some 130
  /\ sock (fst (run env)) = Closed
  /\ last (calls (fst (run env))) = Some SysClose.
Proof.
  destruct (interrupt_during_startup_is_not_caught
              (demo (Some (os.Directory true)) None (Some AtPrintNote)
                 [Exception KeyboardInterrupt]) AtPrintNote eq_refl)
    as (H1 & _ & _ & H4).
  destruct (H4 eq_refl (or_introl eq_refl) (or_introl eq_refl))
    as (H5 & H6 & H7).
  destruct (H7 (or_intror eq_refl)) as (H8 & H9).
  repeat split; assumption.
Defined.

(* ===================================================================== *)
(** * Further properties of the script *)
(* ===================================================================== *)

(** ** Start-up and shutdown *)

Ltac pick_calls :=
  repeat first [ apply sublist_nil | apply sublist_skip | apply sublist_cons ].

(** X1.  Whatever the environment, the system calls of a run are a
    selection, in this order and each at most once, of: [chdir] to [dist],
    [socket], [bind] to all interfaces on port 8080, [listen], [close].
    In particular no run binds twice, binds another port, or changes
    directory after the socket exists. *)
Theorem system_calls_follow_the_order_of_the_script env :
  calls (fst (run env))
  `sublist_of` [SysChdir (dist_path env); SysSocket; SysBind "" PORT;
                SysListen; SysClose].
Proof.
  destruct (starts env) eqn:Hs.
  - destruct (run_starts_state env Hs) as (_ & _ & _ & H4 & _).
    cbv zeta in H4. rewrite H4. unfold ready. cbn [calls].
    destruct (os.isdir (files env) (dist_path env));
      destruct (stops (events env)); cbn [app]; pick_calls.
  - stillborn_cases env Hs; pick_calls.
Qed.

(** X2.  The listening socket is open exactly while the script serves: a
    run that has not ended has it listening, and every run that has ended,
    however it ended, has made no socket or has closed it. *)
Theorem socket_is_open_only_while_serving env :
  (snd (run env) = None -> sock (fst (run env)) = Listening)
  /\ (forall status, snd (run env) = Some status ->
        sock (fst (run env)) = NoSocket \/ sock (fst (run env)) = Closed).
Proof.
  destruct (starts env) eqn:Hs.
  - destruct (run_starts_state env Hs) as (_ & _ & H3 & _ & _ & H6).
    cbv zeta in *. rewrite H3, H6.
    destruct (stops (events env)) as [[]|]; split; intros; try discriminate; auto.
  - destruct (run_stillborn env Hs) as (_ & _ & H3 & [H4|H4] & _);
      rewrite H4; split; intros; try discriminate; exact H3.
Qed.

(** The theorem at work on a run that is still serving. *)
Lemma socket_is_open_only_while_serving_witness :
  let env := demo None None None [Connection (GET "/tex.dds" "HTTP/1.1" [])] in
  snd (run env) = None /\ sock (fst (run env)) = Listening.
Proof.
  cbv zeta.
  assert (snd (run (demo None None None
                      [Connection (GET "/tex.dds" "HTTP/1.1" [])])) = None) as H
    by reflexivity.
  split; [exact H|].
  exact (proj1 (socket_is_open_only_while_serving _) H).
Defined.

(** X3.  The [try] of the script catches [KeyboardInterrupt] only.  Any
    other exception that leaves [serve_forever] ends the script with
    status 1: the farewell line is not printed, the [with] block closes
    the socket, the traceback is the last thing on the error stream, and
    the connections before the exception were answered. *)
Theorem other_exception_in_serve_forever_is_fatal env e :
  starts env = true ->
  stops (events env) = Some e ->
  e <> KeyboardInterrupt ->
  snd (run env) = Some 1
  /\ ~ In stopped_line (stdout (fst (run env)))
  /\ sock (fst (run env)) = Closed
  /\ last (stderr (fst (run env))) = Some "Traceback (most recent call last):"
  /\ sent (fst (run env)) = map (answer env (root env)) (connections (events env)).
Proof.
  intros Hs He Hne.
  pose proof (sent_run env Hs) as Hsent.
  destruct (run_starts_state env Hs) as (_ & _ & H3 & _ & H5 & H6).
  pose proof (run_starts env Hs) as Hr.
  cbv zeta in *. rewrite He in *.
  rewrite H3, H5, H6, Hsent.
  destruct e; try congruence;
    (split; [reflexivity|]);
    (split; [cbn; intros [H|[H|H]]; try (vm_compute in H; discriminate); exact H|]);
    (split; [reflexivity|]);
    (split; [|reflexivity]);
    rewrite Hr; cbn [ends fst stderr put_stderr]; apply last_snoc.
Qed.

(** The theorem at work: the socket fails after one request. *)
Lemma other_exception_in_serve_forever_is_fatal_witness :
  let env := demo (Some (os.Directory true)) None None
               [Connection (GET "/tex.dds" "HTTP/1.1" []);
                Exception (OSError "EBADF")] in
  snd (run env) = Some 1
  /\ ~ In stopped_line (stdout (fst (run env)))
  /\ sock (fst (run env)) = Closed
  /\ last (stderr (fst (run env))) = Some "Traceback (most recent call last):"
  /\ sent (fst (run env)) = map (answer env (root env)) (connections (events env)).
Proof.
  apply (other_exception_in_serve_forever_is_fatal
           (demo (Some (os.Directory true)) None None
              [Connection (GET "/tex.dds" "HTTP/1.1" []);
               Exception (OSError "EBADF")]) (OSError "EBADF")).
  - reflexivity.
  - reflexivity.
  - discriminate.
Defined.

(** X4.  What a run prints is an initial part of: the serving line, the
    note on DDS files, the farewell.  The serving line is printed only
    once the socket listens, and the farewell only when start-up succeeded
    and [serve_forever] was left by [KeyboardInterrupt]. *)
Theorem console_lines_come_in_order_and_after_listen env :
  stdout (fst (run env)) `prefix_of` [serving_line; note_line; stopped_line]
  /\ (In serving_line (stdout (fst (run env))) ->
        In SysListen (calls (fst (run env))))
  /\ (In stopped_line (stdout (fst (run env))) ->
        starts env = true /\ stops (events env) = Some KeyboardInterrupt).
Proof.
  destruct (starts env) eqn:Hs.
  - destruct (run_starts_state env Hs) as (_ & _ & _ & H4 & H5 & _).
    cbv zeta in *. rewrite H4, H5. split; [|split].
    + destruct (stops (events env)) as [[]|]; eexists; reflexivity.
    + intros _. unfold ready. cbn [calls].
      rewrite !in_app_iff. left. right. cbn. auto.
    + intros Hin. split; [reflexivity|].
      destruct (stops (events env)) as [[]|]; try reflexivity;
        cbn in Hin; destruct Hin as [H|[H|H]];
        try (vm_compute in H; discriminate); destruct H.
  - destruct (run_stillborn env Hs) as (_ & H2 & _).
    split; [|split]; [| |intros Hin; contradiction].
    + stillborn_cases env Hs; eexists; reflexivity.
    + stillborn_cases env Hs; cbn; intuition (try (vm_compute in H; discriminate)).
Qed.

(** The theorem at work: a run that printed the farewell. *)
Lemma console_lines_come_in_order_and_after_listen_witness :
  let env := demo (Some (os.Directory true)) None None
               [Exception KeyboardInterrupt] in
  In stopped_line (stdout (fst (run env)))
  /\ starts env = true /\ stops (events env) = Some KeyboardInterrupt.
Proof.
  cbv zeta.
  assert (In stopped_line
            (stdout (fst (run (demo (Some (os.Directory true)) None None
                                 [Exception KeyboardInterrupt]))))) as Hin.
  { right; right; left; reflexivity. }
  split; [exact Hin|].
  exact (proj2 (proj2 (console_lines_come_in_order_and_after_listen _)) Hin).
Defined.

(** X5.  Connections do not influence one another: every connection
    handled gets one answer, and it is the answer the server gives when
    that connection is the only one it ever sees. *)
Theorem every_connection_is_answered_as_if_it_were_the_only_one env i rl :
  starts env = true ->
  connections (events env) !! i = Some rl ->
  exists bytes,
    sent (fst (run (with_events env [Connection rl]))) = [bytes]
    /\ sent (fst (run env)) !! i = Some bytes
    /\ length (sent (fst (run env))) = length (connections (events env)).
Proof.
  intros Hs Hi. exists (answer env (root env) rl).
  assert (starts (with_events env [Connection rl]) = true) as Hs1 by exact Hs.
  split; [|split].
  - rewrite (sent_run _ Hs1). reflexivity.
  - apply answered; assumption.
  - rewrite (sent_run _ Hs). apply length_map.
Qed.

(** The theorem at work on the second of two requests. *)
Lemma every_connection_is_answered_as_if_it_were_the_only_one_witness :
  let env := demo (Some (os.Directory true)) None None
               [Connection (GET "/no.dds" "HTTP/1.1" []);
                Connection (GET "/tex.dds" "HTTP/1.1" [])] in
  exists bytes,
    sent (fst (run (with_events env
                      [Connection (GET "/tex.dds" "HTTP/1.1" [])]))) = [bytes]
    /\ sent (fst (run env)) !! 1%nat = Some bytes
    /\ length (sent (fst (run env))) = length (connections (events env)).
Proof.
  apply (every_connection_is_answered_as_if_it_were_the_only_one
           (demo (Some (os.Directory true)) None None
              [Connection (GET "/no.dds" "HTTP/1.1" []);
               Connection (GET "/tex.dds" "HTTP/1.1" [])])
           1%nat (GET "/tex.dds" "HTTP/1.1" [])).
  - reflexivity.
  - reflexivity.
Defined.

(** ** The registration of [.dds] *)

(** X7.  The registration changes the type guessed for a path in one way
    only: to [application/octet-stream].  For every path, the handler's
    [guess_type] with the script's registry gives what it gives with the
    registry of the system, or it gives [application/octet-stream]. *)
Theorem registration_changes_a_guess_only_to_octet_stream env local :
  let with_dds := fst (guess_type (system_types env) local (Some (registry env))) in
  let without :=
    fst (guess_type (system_types env) local
           (Some (mimetypes.fresh_db (system_types env)))) in
  with_dds = without \/ with_dds = "application/octet-stream".
Proof.
  cbv zeta. unfold guess_type.
  destruct (posixpath.splitext local) as [base ext].
  destruct (extensions_map !! ext); [left; reflexivity|].
  destruct (extensions_map !! Str.lower ext); [left; reflexivity|].
  unfold mimetypes.guess_type, mimetypes.MimeTypes_guess_type.
  cbn [mimetypes.init].
  destruct (posixpath.splitext local) as [base0 ext0].
  change (mimetypes.suffix_loop (registry env))
    with (mimetypes.suffix_loop (mimetypes.fresh_db (system_types env))).
  destruct (mimetypes.suffix_loop _ base0 ext0) as [base1 ext1].
  change (mimetypes.encodings_map (registry env)) with mimetypes._encodings_map_default.
  change (mimetypes.encodings_map (mimetypes.fresh_db (system_types env)))
    with mimetypes._encodings_map_default.
  destruct (match mimetypes._encodings_map_default !! ext1 with
            | Some enc => (Some enc, snd (posixpath.splitext base1))
            | None => (None, ext1)
            end) as [enc ext2].
  change (snd (mimetypes.types_map (registry env)))
    with (<[".dds" := "application/octet-stream"]> (snd (system_types env))).
  change (snd (mimetypes.types_map (mimetypes.fresh_db (system_types env))))
    with (snd (system_types env)).
  destruct (decide (Str.lower ext2 = ".dds")) as [E|E].
  - right. rewrite E, lookup_insert_eq. reflexivity.
  - left. rewrite lookup_insert_ne by congruence.
    destruct (snd (system_types env) !! Str.lower ext2) as [g|];
      [destruct (String.eqb g "")|]; reflexivity.
Qed.

(** X8.  The registration is found whatever the case of the extension:
    a GET or HEAD request that [parse_request] accepts (under a version
    other than HTTP/0.9, without a satisfied [If-Modified-Since]) for a
    readable regular file whose name ends in a dot and letters that read
    [dds] when put in lower case ([.DDS], [.Dds], ...), and whose
    modification time is a date of the years 1 to 9999, is answered 200
    with [Content-type: application/octet-stream]: the bytes sent are
    those of the response with this type, the length and date of the
    file, the two isolation headers and, for GET, the content. *)
Theorem dds_extension_is_matched_without_case
    env i line cmd target version hdrs pre e content mtime :
  starts env = true ->
  connections (events env) !! i = Some (Parsed line cmd target version hdrs) ->
  cmd = "GET" \/ cmd = "HEAD" ->
  version <> "HTTP/0.9" ->
  translate_path (library env) (root env) target = pre ++ String "." e ->
  Str.lower e = "dds" ->
  has_stem pre = true \/ snd (system_types env) !! "" = None ->
  os.valid_name (fsencodable (library env)) (pre ++ String "." e) = true ->
  files env (pre ++ String "." e) = Some (os.RegularFile content mtime true) ->
  datetime.fromtimestamp_ok mtime = true ->
  use_browser_cache (library env) hdrs mtime = false ->
  sent (fst (run env)) !! i
  = Some (to_bytes (file_response (library env) "application/octet-stream"
                      content mtime (String.eqb cmd "GET"))).
Proof.
  intros Hs Hi Hcmd Hv Ht He Hst Hn Hf Hok Hc.
  exact (dds_file_answer env i line cmd target version hdrs pre e
           content mtime Hs Hi Hcmd Hv Ht He Hst Hn Hf Hok Hc).
Qed.

(** The theorem at work on [TEX.DDS], asked for by HEAD. *)
Lemma dds_extension_is_matched_without_case_witness :
  let env := with_events demo_upper_case
               [Connection (Parsed "HEAD /TEX.DDS HTTP/1.1" "HEAD" "/TEX.DDS"
                              "HTTP/1.1" [])] in
  sent (fst (run env)) !! 0%nat
  = Some (to_bytes (file_response (library env) "application/octet-stream"
                      "DDS |" 7 false)).
Proof.
  apply (dds_extension_is_matched_without_case
           (with_events demo_upper_case
              [Connection (Parsed "HEAD /TEX.DDS HTTP/1.1" "HEAD" "/TEX.DDS"
                             "HTTP/1.1" [])])
           0%nat "HEAD /TEX.DDS HTTP/1.1" "HEAD" "/TEX.DDS" "HTTP/1.1" []
           "/srv/TEX" "DDS" "DDS |" 7).
  - reflexivity.
  - reflexivity.
  - right; reflexivity.
  - discriminate.
  - reflexivity.
  - reflexivity.
  - left; reflexivity.
  - reflexivity.
  - reflexivity.
  - reflexivity.
  - reflexivity.
Defined.

(** ** The handler of the script and its base class *)

(** X9.  The class of the script differs from its base class in the two
    headers and in nothing else.  For every request answered under a
    version other than HTTP/0.9, what the server sends is what a handler
    of [SimpleHTTPRequestHandler] sends for that request (same status
    line, same headers in the same order, same body) with the two
    isolation headers put after the last header; the base answer has
    neither header, so each of them is sent once.  The one other case is
    a handler that raises before the header block is flushed: then
    nothing is sent, by either class. *)
Theorem override_adds_the_two_headers_and_nothing_else env i rl v :
  starts env = true ->
  connections (events env) !! i = Some rl ->
  answered_as rl = Some v ->
  v <> "HTTP/0.9" ->
  (exists r,
     base_answer env (root env) rl = to_bytes r
     /\ sent (fst (run env)) !! i = Some (to_bytes (isolate r))
     /\ get_header "Cross-Origin-Embedder-Policy" (fields r) = None
     /\ get_header "Cross-Origin-Opener-Policy" (fields r) = None)
  \/ (base_answer env (root env) rl = ""
      /\ sent (fst (run env)) !! i = Some "").
Proof.
  intros Hs Hi Ha Hv.
  destruct (sent_against_base env i rl v Hs Hi Ha Hv)
    as [(r & Hb & Hd & Hp)|[Hb Hd]].
  - left. exists r. split; [exact Hb|]. split; [exact Hd|].
    split; apply plain_get_header; auto.
  - right. split; assumption.
Qed.

(** The theorem at work on a file and on a missing one. *)
Lemma override_adds_the_two_headers_and_nothing_else_witness :
  let env := demo (Some (os.Directory true)) None None
               [Connection (GET "/tex.dds" "HTTP/1.1" []);
                Connection (GET "/no.dds" "HTTP/1.1" [])] in
  exists r,
    base_answer env (root env) (GET "/no.dds" "HTTP/1.1" []) = to_bytes r
    /\ sent (fst (run env)) !! 1%nat = Some (to_bytes (isolate r))
    /\ get_header "Cross-Origin-Embedder-Policy" (fields r) = None
    /\ get_header "Cross-Origin-Opener-Policy" (fields r) = None.
Proof.
  cbv zeta.
  destruct (override_adds_the_two_headers_and_nothing_else
              (demo (Some (os.Directory true)) None None
                 [Connection (GET "/tex.dds" "HTTP/1.1" []);
                  Connection (GET "/no.dds" "HTTP/1.1" [])])
              1%nat (GET "/no.dds" "HTTP/1.1" []) "HTTP/1.1"
              eq_refl eq_refl eq_refl)
    as [H|[H _]].
  - discriminate.
  - exact H.
  - exfalso. vm_compute in H. discriminate H.
Defined.

(** X10.  Where the request is answered under HTTP/0.9, or not answered at
    all, the override has no effect: the server sends, byte for byte,
    what a handler of the base class sends. *)
Theorem override_changes_nothing_under_http09 env i rl :
  starts env = true ->
  connections (events env) !! i = Some rl ->
  (forall v, answered_as rl = Some v -> v = "HTTP/0.9") ->
  sent (fst (run env)) !! i = Some (base_answer env (root env) rl).
Proof.
  intros Hs Hi Ha. exact (sent_under_http09 env i rl Hs Hi Ha).
Qed.

(** The theorem at work on a request line without a version. *)
Lemma override_changes_nothing_under_http09_witness :
  let env := demo (Some (os.Directory true)) None None
               [Connection (GET09 "/tex.dds")] in
  sent (fst (run env)) !! 0%nat
  = Some (base_answer env (root env) (GET09 "/tex.dds")).
Proof.
  apply (override_changes_nothing_under_http09
           (demo (Some (os.Directory true)) None None
              [Connection (GET09 "/tex.dds")])
           0%nat (GET09 "/tex.dds")).
  - reflexivity.
  - reflexivity.
  - intros v [= <-]. reflexivity.
Defined.
